(** * Vending machine state machine (vending_machine_version_6_fixed.py)

    A shallow embedding of the state-machine core of the vending machine:
    the [Money] ledger, the [Coins] and [Products] catalogues, the
    [VendingMachine] controller and its four [State] classes.

    Python integers are unbounded, so amounts are [Z]; an amount shown
    in dollars goes through a float, and the division raises
    OverflowError beyond the range of the floats.  The dictionaries
    [Coins.denominations] and [Products.items] are [gmap]s keyed by
    strings.  Everything the program prints, logs or sends to an actuator
    (servo, LED, GUI window) is recorded, in order, as a list of
    [Output]s. *)

From Stdlib Require Import ZArith Lia.
From stdpp Require Import base option list sorting gmap strings fin_maps.

Local Open Scope string_scope.
Local Open Scope Z_scope.
Local Open Scope list_scope.

(** ** Python values, outputs and exceptions *)

(** What a method hands back to its caller. *)
Inductive PyVal : Type :=
| PyNone
| PyBool (b : bool)
| PyInt (z : Z).

(** The [_NAME] of each [State] subclass. *)
Inductive StateName : Type :=
| waiting
| add_coins
| deliver_product
| count_change.

#[global] Instance StateName_eq_dec : EqDecision StateName.
Proof. solve_decision. Defined.

(** One constructor per [print], [log] or actuator call of the core. *)
Inductive Output : Type :=
| LogAdded (value total : Z)              (* Money.add *)
| LogSubtracted (value remaining : Z)     (* Money.subtract, success *)
| LogCannotSubtract (value available : Z) (* Money.subtract, failure *)
| LogClearing (cents : Z)                 (* Money.clear *)
| LogExiting (s : StateName)              (* go_to_state *)
| LogEntering (s : StateName)             (* go_to_state *)
| PrintInsertCoinsFirst                   (* WaitingState.update *)
| PrintNoMoneyToReturn                    (* WaitingState.update *)
| PrintInsufficientFunds (need have : Z)  (* AddCoinsState.update *)
| PrintBuzz (product_name : string)       (* DeliverProductState.on_entry *)
| DispenseProduct                         (* machine.dispense_product() *)
| PrintRemainingBalance (cents : Z)       (* DeliverProductState.on_entry *)
| PrintChangeDue (cents : Z)              (* CountChangeState.on_entry *)
| LogReturningChange (cents : Z)          (* CountChangeState.on_entry *)
| BlinkChangeLed (blink_count : Z)        (* machine.blink_change_led(n) *)
| ReturnCoin (coin_value : Z)             (* one pass of the change loop:
                                             "Returning v cents" and one
                                             pulse of the change LED *)
| DisplayAmount (cents : Z).              (* update_display *)

(** ** Exceptions and divergence *)

Inductive Error : Type :=
| OutOfFuel       (* the fuel given to the run did not suffice *)
| TypeError       (* subscripting [None] *)
| OverflowError.  (* an integer division too large for a float *)

Inductive Result (A : Type) : Type :=
| Ok (a : A)
| Raise (e : Error).
Arguments Ok {A} a.
Arguments Raise {A} e.

#[global] Instance Result_ret : MRet Result := λ A a, Ok a.
#[global] Instance Result_bind : MBind Result := λ A B f r,
  match r with
  | Ok a => f a
  | Raise e => Raise e
  end.

#[global] Instance Result_fmap : FMap Result := λ A B f r,
  match r with
  | Ok a => Ok (f a)
  | Raise e => Raise e
  end.

(** ** Amounts in dollars *)

(** [cents / 100] on Python integers is a float.  The division raises
    OverflowError when the correctly rounded quotient does not fit a
    double, which is from [float_limit] cents on, in either sign. *)
Definition float_limit : Z := 100 * (2 ^ 1024 - 2 ^ 970).

(** The amounts that can be shown in dollars. *)
Definition printable (cents : Z) : Prop := Z.abs cents < float_limit.

#[global] Instance printable_dec (cents : Z) : Decision (printable cents).
Proof. unfold printable. apply _. Defined.

#[global] Arguments printable_dec : simpl never.

(** [cents / 100], kept in cents: the [:.2f] that follows every such
    division in the source never fails. *)
Definition dollars (cents : Z) : Result Z :=
  if bool_decide (printable cents) then Ok cents else Raise OverflowError.

(** ** The Money class *)

Module Money.

Record t : Type := Build { amount : Z }.

(** A call of a mutating method yields the mutated object, the value
    the method returns and the lines it logged. *)
Definition call : Type := t * PyVal * list Output.

Definition init : t := {| amount := 0 |}.

Definition add (value : Z) (self : t) : call :=
  let self' := {| amount := amount self + value |} in
  (self', PyNone, [LogAdded value (amount self')]).

Definition subtract (value : Z) (self : t) : call :=
  if bool_decide (value <= amount self) then
    let self' := {| amount := amount self - value |} in
    (self', PyBool true, [LogSubtracted value (amount self')])
  else
    (self, PyBool false, [LogCannotSubtract value (amount self)]).

(** A pure getter: nothing is mutated or logged. *)
Definition get_amount (self : t) : Z := amount self.

Definition clear (self : t) : call :=
  ({| amount := 0 |}, PyNone, [LogClearing (amount self)]).

(** The balance in dollars; raises OverflowError beyond the floats. *)
Definition get_formatted (self : t) : Result Z := dollars (amount self).

Definition self_of (c : call) : t := c.1.1.
Definition ret_of (c : call) : PyVal := c.1.2.
Definition log_of (c : call) : list Output := c.2.

End Money.

(** ** The Coins and Products classes *)

Module Coins.

Record t : Type := Build { denominations : gmap string (string * Z) }.

Definition init : t := {| denominations := ∅ |}.

Definition add_coin (key name : string) (value : Z) (self : t) : t :=
  {| denominations := <[key := (name, value)]> (denominations self) |}.

Definition get_coin (key : string) (self : t) : option (string * Z) :=
  denominations self !! key.

Definition coin_exists (key : string) (self : t) : bool :=
  bool_decide (is_Some (denominations self !! key)).

(** [sorted(values, reverse=True)]: the face values, largest first. *)
Definition get_values (self : t) : list Z :=
  let values := (λ coin : string * (string * Z), coin.2.2)
                  <$> map_to_list (denominations self) in
  merge_sort (flip Z.le) values.

End Coins.

Module Products.

Record t : Type := Build { items : gmap string (string * Z) }.

Definition init : t := {| items := ∅ |}.

Definition add_product (key name : string) (price : Z) (self : t) : t :=
  {| items := <[key := (name, price)]> (items self) |}.

Definition get_product (key : string) (self : t) : option (string * Z) :=
  items self !! key.

Definition product_exists (key : string) (self : t) : bool :=
  bool_decide (is_Some (items self !! key)).

End Products.

#[global] Arguments Coins.get_coin : simpl never.
#[global] Arguments Coins.coin_exists : simpl never.
#[global] Arguments Products.get_product : simpl never.
#[global] Arguments Products.product_exists : simpl never.

(** ** The VendingMachine class *)

(** [out] is not an attribute of the Python object: it collects what the
    machine has printed, logged and sent to its actuators so far.  The
    machine is the one [main] builds, with a window and the four states
    registered, so [self.states[state_name]] never misses.  The flag
    [last_update_message_shown], which only throttles a debug message of
    [update_display], is left out. *)
Record VendingMachine : Type := {
  state : option StateName;
  event : string;
  money : Money.t;
  products : Products.t;
  coins : Coins.t;
  change_due : Z;
  coin_values : list Z;
  out : list Output
}.

(** Attribute assignments. *)
Definition set_state (s : option StateName) (m : VendingMachine) :=
  let '(Build_VendingMachine _ e a p c d v o) := m in
  Build_VendingMachine s e a p c d v o.

Definition set_event (e : string) (m : VendingMachine) :=
  let '(Build_VendingMachine s _ a p c d v o) := m in
  Build_VendingMachine s e a p c d v o.

Definition set_money (a : Money.t) (m : VendingMachine) :=
  let '(Build_VendingMachine s e _ p c d v o) := m in
  Build_VendingMachine s e a p c d v o.

Definition set_change_due (d : Z) (m : VendingMachine) :=
  let '(Build_VendingMachine s e a p c _ v o) := m in
  Build_VendingMachine s e a p c d v o.

(** Appending to the output. *)
Definition emits (l : list Output) (m : VendingMachine) :=
  let '(Build_VendingMachine s e a p c d v o) := m in
  Build_VendingMachine s e a p c d v (o ++ l).

Definition emit (o : Output) : VendingMachine -> VendingMachine := emits [o].

(** [machine.money.f(...)] with the returned value dropped, as every call
    site of a mutating ledger method does. *)
Definition money_do (f : Money.t -> Money.call) (m : VendingMachine) :=
  let c := f (money m) in
  emits (Money.log_of c) (set_money (Money.self_of c) m).

(** [VendingMachine.__init__] *)
Definition VendingMachine_init (products : Products.t) (coins : Coins.t) :=
  {| state := None; event := ""; money := Money.init;
     products := products; coins := coins;
     change_due := 0; coin_values := Coins.get_values coins;
     out := [] |}.

Definition add_coin (coin_key : string) (self : VendingMachine) :=
  match Coins.get_coin coin_key (coins self) with
  | Some coin_info => money_do (Money.add coin_info.2) self
  | None => self
  end.

(** The refresh of the window, recorded with the balance it is called
    with.  The source formats the balance inside a [try] whose [except
    Exception] only reports the failure: nothing is raised from here, and
    when the balance is beyond the floats the window keeps its text. *)
Definition update_display (self : VendingMachine) :=
  emit (DisplayAmount (Money.amount (money self))) self.

Definition dispense_product : VendingMachine -> VendingMachine :=
  emit DispenseProduct.

Definition blink_change_led (blink_count : Z) :=
  emit (BlinkChangeLed blink_count).

(** ** The State classes *)

(** [State.on_exit] is [pass] and no subclass overrides it. *)
Definition on_exit (s : StateName) (machine : VendingMachine) := machine.

(** [go_to_state] is the transition function the entry action calls
    back into.  The remaining balance is printed in dollars, outside any
    [try]. *)
Definition DeliverProductState_on_entry
    (go_to_state : StateName -> VendingMachine -> Result VendingMachine)
    (machine : VendingMachine) : Result VendingMachine :=
  match Products.get_product (event machine) (products machine) with
  | None => Raise TypeError
  | Some (product_name, product_price) =>
      let machine := money_do (Money.subtract product_price) machine in
      let machine := emit (PrintBuzz product_name) machine in
      let machine := dispense_product machine in
      balance ← Money.get_formatted (money machine);
      let machine := emit (PrintRemainingBalance balance) machine in
      go_to_state add_coins machine
  end.

Definition CountChangeState_on_entry (machine : VendingMachine)
    : Result VendingMachine :=
  change_dollars ← dollars (change_due machine);
  let machine := emit (PrintChangeDue change_dollars) machine in
  let machine := emit (LogReturningChange (change_due machine)) machine in
  Ok (blink_change_led 3 machine).

Definition on_entry
    (go_to_state : StateName -> VendingMachine -> Result VendingMachine)
    (s : StateName) (machine : VendingMachine) : Result VendingMachine :=
  match s with
  | waiting | add_coins => Ok machine
  | deliver_product => DeliverProductState_on_entry go_to_state machine
  | count_change => CountChangeState_on_entry machine
  end.

(** [VendingMachine.go_to_state].  An entry action may transition again,
    so each nested transition spends one unit of fuel. *)
Fixpoint go_to_state (fuel : nat) (state_name : StateName)
    (self : VendingMachine) : Result VendingMachine :=
  match fuel with
  | O => Raise OutOfFuel
  | S fuel' =>
      let self :=
        match state self with
        | Some s => on_exit s (emit (LogExiting s) self)
        | None => self
        end in
      let self := set_state (Some state_name) self in
      let self := emit (LogEntering state_name) self in
      on_entry (go_to_state fuel') state_name self
  end.

Definition WaitingState_update (fuel : nat) (machine : VendingMachine)
    : Result VendingMachine :=
  if Coins.coin_exists (event machine) (coins machine) then
    go_to_state fuel add_coins (add_coin (event machine) machine)
  else if Products.product_exists (event machine) (products machine) then
    Ok (emit PrintInsertCoinsFirst machine)
  else if bool_decide (event machine = "RETURN") then
    Ok (emit PrintNoMoneyToReturn machine)
  else Ok machine.

Definition AddCoinsState_update (fuel : nat) (machine : VendingMachine)
    : Result VendingMachine :=
  if bool_decide (event machine = "RETURN") then
    let machine :=
      set_change_due (Money.get_amount (money machine)) machine in
    let machine := money_do Money.clear machine in
    go_to_state fuel count_change machine
  else if Coins.coin_exists (event machine) (coins machine) then
    Ok (add_coin (event machine) machine)
  else if Products.product_exists (event machine) (products machine) then
    match Products.get_product (event machine) (products machine) with
    | None => Raise TypeError
    | Some product =>
        let product_price := product.2 in
        let current_balance := Money.get_amount (money machine) in
        if bool_decide (current_balance >= product_price) then
          go_to_state fuel deliver_product machine
        else
          Ok (emit (PrintInsufficientFunds product_price current_balance)
                machine)
    end
  else Ok machine.

(** [while machine.change_due >= coin_value]: each pass spends one unit
    of fuel. *)
Fixpoint return_while (fuel : nat) (coin_value : Z)
    (machine : VendingMachine) : Result VendingMachine :=
  if bool_decide (change_due machine >= coin_value) then
    match fuel with
    | O => Raise OutOfFuel
    | S fuel' =>
        let machine := emit (ReturnCoin coin_value) machine in
        let machine :=
          set_change_due (change_due machine - coin_value) machine in
        return_while fuel' coin_value machine
    end
  else Ok machine.

(** [for coin_value in machine.coin_values] *)
Fixpoint return_for (fuel : nat) (values : list Z)
    (machine : VendingMachine) : Result VendingMachine :=
  match values with
  | [] => Ok machine
  | coin_value :: rest =>
      machine ← return_while fuel coin_value machine;
      return_for fuel rest machine
  end.

Definition CountChangeState_update (fuel : nat) (machine : VendingMachine)
    : Result VendingMachine :=
  machine ← return_for fuel (coin_values machine) machine;
  if bool_decide (change_due machine = 0) then
    go_to_state fuel waiting machine
  else Ok machine.

(** Dispatch of [self.state.update(self)]; [DeliverProductState] inherits
    [State.update], which is [pass]. *)
Definition State_update (fuel : nat) (s : StateName)
    (machine : VendingMachine) : Result VendingMachine :=
  match s with
  | waiting => WaitingState_update fuel machine
  | add_coins => AddCoinsState_update fuel machine
  | deliver_product => Ok machine
  | count_change => CountChangeState_update fuel machine
  end.

(** [VendingMachine.update] *)
Definition update (fuel : nat) (self : VendingMachine)
    : Result VendingMachine :=
  self ← match state self with
         | Some s => State_update fuel s self
         | None => Ok self
         end;
  Ok (update_display self).

(** One turn of the main event loop, and likewise [button_action] with
    [ev = "RETURN"]: [vending.event = ev; vending.update()]. *)
Definition tick (fuel : nat) (ev : string) (self : VendingMachine)
    : Result VendingMachine :=
  update fuel (set_event ev self).

(** A sequence of turns, one per event. *)
Fixpoint run (fuel : nat) (evs : list string) (self : VendingMachine)
    : Result VendingMachine :=
  match evs with
  | [] => Ok self
  | ev :: rest => self ← tick fuel ev self; run fuel rest self
  end.

(** ** The shipped configuration *)

Definition setup_coins : Coins.t :=
  Coins.add_coin "200" "$2" 200
    (Coins.add_coin "100" "$1" 100
      (Coins.add_coin "25" "25¢" 25
        (Coins.add_coin "10" "10¢" 10
          (Coins.add_coin "5" "5¢" 5 Coins.init)))).

Definition setup_products : Products.t :=
  Products.add_product "nuts" "NUTS" 150
    (Products.add_product "crackers" "CRACKERS" 60
      (Products.add_product "juice" "JUICE" 125
        (Products.add_product "water" "WATER" 95
          (Products.add_product "cookies" "COOKIES" 85
            (Products.add_product "gum" "GUM" 25
              (Products.add_product "soda" "SODA" 100
                (Products.add_product "candy" "CANDY" 75
                  (Products.add_product "chips" "CHIPS" 50
                    (Products.add_product "surprise" "SURPRISE" 5
                      Products.init))))))))).

(** The machine as [main] leaves it before the event loop: constructed,
    then [go_to_state('waiting')]. *)
Definition main_start (fuel : nat) (products : Products.t) (coins : Coins.t)
    : Result VendingMachine :=
  go_to_state fuel waiting (VendingMachine_init products coins).

(** States the event loop can be in. *)
Inductive reachable (products : Products.t) (coins : Coins.t)
    : VendingMachine -> Prop :=
| reachable_start fuel m :
    main_start fuel products coins = Ok m -> reachable products coins m
| reachable_tick fuel ev m m' :
    reachable products coins m -> tick fuel ev m = Ok m' ->
    reachable products coins m'.

(** ** Reading the output; the greedy breakdown *)

(** The coins handed back, in order: the values of the [ReturnCoin]
    signals of a stretch of output. *)
Fixpoint coin_signals (l : list Output) : list Z :=
  match l with
  | [] => []
  | ReturnCoin v :: l' => v :: coin_signals l'
  | _ :: l' => coin_signals l'
  end.

(** The greedy breakdown of [owed] over the denominations [values]:
    as many of the first as fit, then the rest over the others. *)
Fixpoint greedy (values : list Z) (owed : Z) : list Z :=
  match values with
  | [] => []
  | v :: rest => replicate (Z.to_nat (owed / v)) v ++ greedy rest (owed mod v)
  end.

(** What is still owed after the greedy breakdown. *)
Definition residue (values : list Z) (owed : Z) : Z :=
  fold_left Z.modulo values owed.

(** The bookkeeping part of [go_to_state] for a target state whose entry
    action is [pass]. *)
Definition log_exit (m : VendingMachine) : VendingMachine :=
  match state m with
  | Some s => emit (LogExiting s) m
  | None => m
  end.

Definition entered (s : StateName) (m : VendingMachine) : VendingMachine :=
  emit (LogEntering s) (set_state (Some s) (log_exit m)).

(** ** Transitions, runs and the machines of the scenarios *)

(** The reading of C3 as stated: [clear] zeroes the ledger and returns
    the amount it held. *)
Definition clear_returns_cleared (self : Money.t) : Prop :=
  Money.amount (Money.self_of (Money.clear self)) = 0 /\
  Money.ret_of (Money.clear self) = PyInt (Money.amount self).

(** A catalogue with a price that is not a multiple of 5. *)
Definition pen_products : Products.t :=
  Products.add_product "pen" "PEN" 22 Products.init.

(** Paying 25 for the 22-cent pen and pressing RETURN. *)
Definition pen_run : Result VendingMachine :=
  m0 ← main_start 1 pen_products setup_coins;
  run 2 ["25"; "pen"; "RETURN"] m0.

(** The machine of the counterexample at the moment 3 cents are owing. *)
Definition owing_three : VendingMachine :=
  {| state := Some count_change; event := "RETURN"; money := Money.init;
     products := pen_products; coins := setup_coins;
     change_due := 3; coin_values := [200; 100; 25; 10; 5]; out := [] |}.

(** The machine of C5: add_coins with 30 cents in the shipped machine. *)
Definition thirty_cents : VendingMachine :=
  {| state := Some add_coins; event := "10"; money := Money.Build 30;
     products := setup_products; coins := setup_coins;
     change_due := 0; coin_values := Coins.get_values setup_coins;
     out := [] |}.

(** The transitions of the machine, one constructor per branch of the
    [update] methods. *)
Inductive step (m : VendingMachine) (ev : string) : VendingMachine -> Prop :=
| step_no_state :
    state m = None -> step m ev (update_display (set_event ev m))
| step_deliver_idle :
    state m = Some deliver_product ->
    step m ev (update_display (set_event ev m))
| step_waiting_coin coin :
    state m = Some waiting -> Coins.get_coin ev (coins m) = Some coin ->
    step m ev
      (update_display
         (entered add_coins (money_do (Money.add coin.2) (set_event ev m))))
| step_waiting_product product :
    state m = Some waiting -> Coins.get_coin ev (coins m) = None ->
    Products.get_product ev (products m) = Some product ->
    step m ev (update_display (emit PrintInsertCoinsFirst (set_event ev m)))
| step_waiting_return :
    state m = Some waiting -> Coins.get_coin ev (coins m) = None ->
    Products.get_product ev (products m) = None -> ev = "RETURN" ->
    step m ev (update_display (emit PrintNoMoneyToReturn (set_event ev m)))
| step_unknown :
    state m = Some waiting \/ state m = Some add_coins ->
    Coins.get_coin ev (coins m) = None ->
    Products.get_product ev (products m) = None -> ev <> "RETURN" ->
    step m ev (update_display (set_event ev m))
| step_add_return :
    state m = Some add_coins -> ev = "RETURN" ->
    printable (Money.amount (money m)) ->
    step m ev
      (update_display
         (blink_change_led 3
            (emit (LogReturningChange (Money.amount (money m)))
               (emit (PrintChangeDue (Money.amount (money m)))
                  (entered count_change
                     (money_do Money.clear
                        (set_change_due (Money.amount (money m))
                           (set_event ev m))))))))
| step_add_coin coin :
    state m = Some add_coins -> ev <> "RETURN" ->
    Coins.get_coin ev (coins m) = Some coin ->
    step m ev (update_display (money_do (Money.add coin.2) (set_event ev m)))
| step_add_buy product_name product_price :
    state m = Some add_coins -> ev <> "RETURN" ->
    Coins.get_coin ev (coins m) = None ->
    Products.get_product ev (products m)
      = Some (product_name, product_price) ->
    product_price <= Money.amount (money m) ->
    printable (Money.amount (money m) - product_price) ->
    step m ev
      (update_display
         (entered add_coins
            (emit (PrintRemainingBalance (Money.amount (money m) - product_price))
               (dispense_product
                  (emit (PrintBuzz product_name)
                     (money_do (Money.subtract product_price)
                        (entered deliver_product (set_event ev m))))))))
| step_add_short product_name product_price :
    state m = Some add_coins -> ev <> "RETURN" ->
    Coins.get_coin ev (coins m) = None ->
    Products.get_product ev (products m)
      = Some (product_name, product_price) ->
    Money.amount (money m) < product_price ->
    step m ev
      (update_display
         (emit (PrintInsufficientFunds product_price (Money.amount (money m)))
            (set_event ev m)))
| step_count_owing fuel m1 :
    state m = Some count_change ->
    return_for fuel (coin_values m) (set_event ev m) = Ok m1 ->
    change_due m1 <> 0 ->
    step m ev (update_display m1)
| step_count_paid fuel m1 :
    state m = Some count_change ->
    return_for fuel (coin_values m) (set_event ev m) = Ok m1 ->
    change_due m1 = 0 ->
    step m ev (update_display (entered waiting m1)).

(** A whole session: start-up, then one turn per event. *)
Definition main_run (fuel : nat) (products : Products.t) (coins : Coins.t)
    (evs : list string) : Result VendingMachine :=
  m0 ← main_start fuel products coins; run fuel evs m0.

(** The run returned, rather than raising or running out of fuel. *)
Definition is_ok {A : Type} (r : Result A) : bool :=
  match r with Ok _ => true | Raise _ => false end.

(** The machine a successful run ends with. *)
Definition machine_of (r : Result VendingMachine) : VendingMachine :=
  match r with
  | Ok m => m
  | Raise _ => VendingMachine_init Products.init Coins.init
  end.

(** The states a machine can be found in between two turns. *)
Definition resting (m : VendingMachine) : Prop :=
  state m = Some waiting \/ state m = Some add_coins \/
  state m = Some count_change.

(** The line [Money.subtract] logs when it refuses a debit. *)
Definition debit_refused (o : Output) : bool :=
  match o with
  | LogCannotSubtract _ _ => true
  | _ => false
  end.

(** The shipped machine after a 5-cent coin and RETURN. *)
Definition five_returned : VendingMachine :=
  machine_of (main_run 1 setup_products setup_coins ["5"; "RETURN"]).

(** The face values of a sequence of coin presses, summed. *)
Definition coins_total (c : Coins.t) (keys : list string) : Z :=
  foldr (λ key acc,
           match Coins.get_coin key c with
           | Some coin => coin.2 + acc
           | None => acc
           end) 0 keys.

(** A key of the coin panel: a denomination other than the reserved
    RETURN. *)
Definition coin_key (c : Coins.t) (key : string) : Prop :=
  is_Some (Coins.get_coin key c) /\ key <> "RETURN".

(** A stretch of output that hands back no coin. *)
Definition quiet (l : list Output) : Prop := coin_signals l = [].

(** The shipped machine when the event loop starts. *)
Definition shipped_start : VendingMachine :=
  entered waiting (VendingMachine_init setup_products setup_coins).

(** What every turn of the shipped machine preserves. *)
Definition shipped_inv (m : VendingMachine) : Prop :=
  products m = setup_products /\ coins m = setup_coins /\
  coin_values m = [200; 100; 25; 10; 5] /\
  0 <= Money.amount (money m) /\ (5 | Money.amount (money m)) /\
  0 <= change_due m /\ (5 | change_due m).

(** ** Accounting over the output *)

(** The sum of a list of amounts. *)
Definition total (l : list Z) : Z := foldr Z.add 0 l.

(** Cents credited by [Money.add], as logged. *)
Fixpoint inserted (l : list Output) : Z :=
  match l with
  | [] => 0
  | LogAdded value _ :: l' => value + inserted l'
  | _ :: l' => inserted l'
  end.

(** Cents taken by successful calls of [Money.subtract], as logged. *)
Fixpoint debited (l : list Output) : Z :=
  match l with
  | [] => 0
  | LogSubtracted value _ :: l' => value + debited l'
  | _ :: l' => debited l'
  end.

(** How many times the dispenser was fired. *)
Fixpoint dispensed (l : list Output) : nat :=
  match l with
  | [] => O
  | DispenseProduct :: l' => S (dispensed l')
  | _ :: l' => dispensed l'
  end.

(** How many debits succeeded. *)
Fixpoint debits (l : list Output) : nat :=
  match l with
  | [] => O
  | LogSubtracted _ _ :: l' => S (debits l')
  | _ :: l' => debits l'
  end.

(** The face values in a catalogue of coins, in [gmap] order. *)
Definition face_values (c : Coins.t) : list Z :=
  (λ coin : string * (string * Z), coin.2.2)
    <$> map_to_list (Coins.denominations c).

(** A catalogue whose coins are all worth something. *)
Definition positive_coins (c : Coins.t) : Prop :=
  map_Forall (λ (_ : string) (coin : string * Z), 0 < coin.2)
    (Coins.denominations c).

(** A catalogue with a coin worth nothing. *)
Definition token_coins : Coins.t :=
  Coins.add_coin "token" "TOKEN" 0 (Coins.add_coin "5" "5¢" 5 Coins.init).

(** The machine with that catalogue after a 5-cent coin and RETURN. *)
Definition token_returned : VendingMachine :=
  machine_of (main_run 1 setup_products token_coins ["5"; "RETURN"]).

(** The books of a machine: everything credited so far is either spent,
    handed back, in the ledger or owing; a waiting machine holds and owes
    nothing, one collecting coins owes nothing, one counting change holds
    nothing; the dispenser fired once per successful debit. *)
Definition books_balanced (m : VendingMachine) : Prop :=
  inserted (out m)
    = debited (out m) + total (coin_signals (out m))
      + Money.amount (money m) + change_due m /\
  (state m = Some waiting -> Money.amount (money m) = 0 /\ change_due m = 0) /\
  (state m = Some add_coins -> change_due m = 0) /\
  (state m = Some count_change -> Money.amount (money m) = 0) /\
  dispensed (out m) = debits (out m).

(** The shipped machine after three 10-cent coins and a gum. *)
Definition gum_bought : VendingMachine :=
  machine_of (main_run 2 setup_products setup_coins
                ["10"; "10"; "10"; "gum"]).

(** The same session closed by RETURN and one more turn. *)
Definition gum_settled : VendingMachine :=
  machine_of (main_run 2 setup_products setup_coins
                ["10"; "10"; "10"; "gum"; "RETURN"; "__TIMEOUT__"]).

(** What a machine built on positive denominations keeps: its catalogue
    of coins, the denominations computed from it at construction, and a
    ledger and a change owing that are not negative. *)
Definition sound_ledger (cs : Coins.t) (m : VendingMachine) : Prop :=
  coins m = cs /\ coin_values m = Coins.get_values cs /\
  0 <= Money.amount (money m) /\ 0 <= change_due m.




(** ** Start-up: the repair of FreeSimpleGUI.py *)

(** Python's [needle in hay] on strings. *)
Definition contains (needle hay : string) : bool :=
  match String.index 0 needle hay with
  | Some _ => true
  | None => false
  end.








(** * Properties *)

(** ** Proof tactics *)

(** Open the record of a machine, so that attribute assignments on it
    compute. *)
Ltac machine m :=
  destruct m as [? ? ? ? ? ? ? ?]; simpl in *; subst.

(** The same with the current state and the ledger opened as well. *)
Ltac open_machine m :=
  destruct m as [[?|] ? [?] ? ? ? ? ?];
  unfold money_do, Money.subtract in *; simplify_eq/=.

(** [drop (length old) (((old ++ a) ++ b) ++ ...)] is [a ++ b ++ ...]. *)
Ltac drop_old_output :=
  match goal with
  | |- context [drop (length ?old) _] =>
      rewrite <- ?(app_assoc old); rewrite drop_app_length
  end.

(** Unfold one turn down to the branch taken. *)
Ltac run_tick :=
  unfold tick, update, State_update, WaitingState_update,
    AddCoinsState_update, add_coin; simpl.

(** ** The denominations of the shipped machine *)

Example get_values_shipped :
  Coins.get_values setup_coins = [200; 100; 25; 10; 5].
Proof. vm_compute. reflexivity. Qed.

(** ** Amounts in dollars *)

Lemma dollars_printable (cents : Z) : printable cents -> dollars cents = Ok cents.
Proof. intros H. unfold dollars. by rewrite bool_decide_eq_true_2. Qed.

Lemma dollars_overflow (cents : Z) :
  ~ printable cents -> dollars cents = Raise OverflowError.
Proof. intros H. unfold dollars. by rewrite bool_decide_eq_false_2. Qed.

Lemma dollars_inv (cents balance : Z) :
  dollars cents = Ok balance -> printable cents /\ balance = cents.
Proof.
  unfold dollars. case_bool_decide; [|discriminate]. by intros [= <-].
Qed.

Lemma printable_0 : printable 0.
Proof. vm_compute. reflexivity. Qed.

(** Every amount a session could ever collect is far below the limit. *)
Lemma printable_below (cents : Z) : Z.abs cents < 10 ^ 310 -> printable cents.
Proof.
  intros H. unfold printable. eapply Z.lt_trans; [exact H|].
  vm_compute. reflexivity.
Qed.

(** ** Ledger theorems *)



(** C3, as stated, fails on a ledger holding 30 cents: [clear] returns
    None, not 30. *)
Lemma clear_returns_cleared_fails :
  ~ clear_returns_cleared (Money.Build 30).
Proof. intros [_ H]. discriminate H. Qed.

(** C3, amended: [clear] sets the balance to 0, logs the amount it held
    and returns None; the caller that needs the cleared amount,
    [AddCoinsState.update] on RETURN, reads it with [get_amount] before
    clearing and keeps it in [change_due].  That turn returns whenever
    the amount can be shown in dollars; beyond the floats it raises
    OverflowError. *)
Theorem clear_resets_returns_none (self : Money.t) (fuel : nat)
    (m : VendingMachine) :
  Money.amount (Money.self_of (Money.clear self)) = 0 /\
  Money.ret_of (Money.clear self) = PyNone /\
  Money.log_of (Money.clear self) = [LogClearing (Money.get_amount self)] /\
  (printable (Money.amount (money m)) ->
   exists m', AddCoinsState_update (S fuel) (set_event "RETURN" m) = Ok m' /\
              change_due m' = Money.amount (money m) /\
              Money.amount (money m') = 0) /\
  (~ printable (Money.amount (money m)) ->
   AddCoinsState_update (S fuel) (set_event "RETURN" m)
     = Raise OverflowError).
Proof.
  do 3 (split; [reflexivity|]).
  split; intros Hp; destruct m as [[s|] ? [a] ? ? ? ? ?];
    unfold AddCoinsState_update; simpl in *;
    unfold CountChangeState_on_entry; simpl.
  1-2: rewrite dollars_printable by done; simpl;
    (eexists; split; [reflexivity|]; split; reflexivity).
  all: by rewrite dollars_overflow.
Qed.

Lemma clear_resets_returns_none_witness :
  exists m', AddCoinsState_update 1 (set_event "RETURN" thirty_cents) = Ok m' /\
             change_due m' = 30 /\ Money.amount (money m') = 0.
Proof.
  destruct (clear_resets_returns_none Money.init 0 thirty_cents)
    as (_ & _ & _ & H & _).
  apply H. vm_compute. reflexivity.
Defined.

(** ** The change loop *)

Lemma div_step (c v : Z) : 0 < v -> v <= c ->
  Z.to_nat (c / v) = S (Z.to_nat ((c - v) / v)) /\ (c - v) mod v = c mod v.
Proof.
  intros Hv Hc.
  assert (Hd : c / v = (c - v) / v + 1).
  { rewrite <- Z.div_add by lia. f_equal. lia. }
  assert (Hm : c mod v = (c - v) mod v).
  { rewrite <- (Z.mod_add (c - v) 1 v) by lia. f_equal. lia. }
  assert (0 <= (c - v) / v) by (apply Z.div_pos; lia). lia.
Qed.

(** With a positive coin the inner loop stops after [owed / coin] passes,
    leaving [owed mod coin]. *)
Lemma return_while_spec (fuel : nat) (v : Z) :
  0 < v -> forall m : VendingMachine,
  0 <= change_due m -> (Z.to_nat (change_due m / v) <= fuel)%nat ->
  return_while fuel v m =
    Ok (set_change_due (change_due m mod v)
          (emits (ReturnCoin <$> replicate (Z.to_nat (change_due m / v)) v) m)).
Proof.
  intros Hv.
  induction fuel as [|fuel IH]; intros [s e a p c d vs o] Hc Hfuel;
    simpl in *.
  - assert (Hlt : d < v).
    { destruct (Z.lt_ge_cases d v) as [|Hge]; [done|].
      destruct (div_step _ _ Hv Hge). lia. }
    rewrite bool_decide_eq_false_2 by lia.
    rewrite Z.div_small, Z.mod_small by lia. simpl.
    rewrite app_nil_r. reflexivity.
  - case_bool_decide as Hge.
    + destruct (div_step d v Hv) as [Hd Hm]; [lia|].
      rewrite IH; simpl; [|lia|lia].
      rewrite Hd, Hm. simpl. rewrite <- app_assoc. reflexivity.
    + rewrite Z.div_small, Z.mod_small by lia. simpl.
      rewrite app_nil_r. reflexivity.
Qed.

(** With a coin that is not positive the inner loop never stops once it
    is entered: no amount of fuel is enough. *)
Lemma return_while_diverges (v : Z) (fuel : nat) :
  v <= 0 -> forall m : VendingMachine,
  v <= change_due m -> return_while fuel v m = Raise OutOfFuel.
Proof.
  intros Hv. induction fuel as [|fuel IH]; intros [s e a p c d vs o] Hd;
    simpl in *; rewrite bool_decide_eq_true_2 by lia; [reflexivity|].
  apply IH. simpl. lia.
Qed.

Lemma residue_bounds (values : list Z) : Forall (λ v, 0 < v) values ->
  forall c, 0 <= c -> 0 <= residue values c <= c.
Proof.
  unfold residue. induction 1 as [|v l Hv _ IH]; intros c Hc; simpl; [lia|].
  pose proof (Z.mod_pos_bound c v Hv). pose proof (Z.mod_le c v Hc Hv).
  specialize (IH (c mod v)). lia.
Qed.

(** The loop over positive denominations hands out the greedy breakdown
    and leaves its residue. *)
Lemma return_for_spec (fuel : nat) (values : list Z) :
  Forall (λ v, 0 < v) values -> forall m : VendingMachine,
  0 <= change_due m -> (Z.to_nat (change_due m) <= fuel)%nat ->
  return_for fuel values m =
    Ok (set_change_due (residue values (change_due m))
          (emits (ReturnCoin <$> greedy values (change_due m)) m)).
Proof.
  induction 1 as [|v l Hv _ IH]; intros m Hc Hfuel.
  - destruct m; simpl. rewrite app_nil_r. reflexivity.
  - assert (change_due m / v <= change_due m).
    { apply Z.div_le_upper_bound; nia. }
    pose proof (Z.mod_pos_bound (change_due m) v Hv).
    pose proof (Z.mod_le (change_due m) v Hc Hv).
    cbn [return_for]. rewrite return_while_spec by lia.
    destruct m as [s e a p c d vs o]; simpl in *.
    rewrite IH; simpl; [|lia|lia].
    rewrite fmap_app, app_assoc. reflexivity.
Qed.

Lemma residue_lt (values : list Z) : Forall (λ v, 0 < v) values ->
  forall c, 0 <= c -> Forall (λ v, residue values c < v) values.
Proof.
  induction 1 as [|v l Hv Hl IH]; intros c Hc; constructor.
  - pose proof (Z.mod_pos_bound c v Hv).
    pose proof (residue_bounds l Hl (c mod v)).
    unfold residue in *. simpl. lia.
  - apply (IH (c mod v)). pose proof (Z.mod_pos_bound c v Hv). lia.
Qed.

Lemma small_is_residue (values : list Z) (r : Z) :
  0 <= r -> Forall (λ v, r < v) values ->
  residue values r = r /\ greedy values r = [].
Proof.
  intros Hr. unfold residue. induction 1 as [|v l Hv _ IH]; simpl; [done|].
  rewrite Z.mod_small, Z.div_small by lia. simpl. exact IH.
Qed.

(** [CountChangeState.update] under positive denominations: the greedy
    breakdown goes out, and the machine moves to waiting exactly when
    nothing is left owing. *)
Lemma CountChangeState_update_spec (fuel : nat) (m : VendingMachine) :
  Forall (λ v, 0 < v) (coin_values m) -> 0 <= change_due m ->
  (Z.to_nat (change_due m) < fuel)%nat ->
  CountChangeState_update fuel m =
    let m1 := set_change_due (residue (coin_values m) (change_due m))
                (emits (ReturnCoin <$> greedy (coin_values m) (change_due m)) m)
    in Ok (if bool_decide (residue (coin_values m) (change_due m) = 0)
           then entered waiting m1 else m1).
Proof.
  intros Hpos Hc Hfuel. unfold CountChangeState_update.
  rewrite return_for_spec by (auto; lia).
  destruct m as [s e a p c d vs o]; simpl in *.
  case_bool_decide; [|reflexivity].
  destruct fuel as [|fuel]; [lia|]. destruct s; reflexivity.
Qed.

(** ** One turn of the event loop, case by case *)

Lemma go_to_state_plain (fuel : nat) (s : StateName) (m : VendingMachine) :
  s = waiting \/ s = add_coins ->
  go_to_state (S fuel) s m = Ok (entered s m).
Proof. intros [-> | ->]; destruct m as [[?|] ? ? ? ? ? ? ?]; reflexivity. Qed.

Lemma go_to_state_deliver_product (fuel : nat) (m : VendingMachine)
    (product_name : string) (product_price : Z) :
  Products.get_product (event m) (products m)
    = Some (product_name, product_price) ->
  printable
    (Money.amount (Money.self_of (Money.subtract product_price (money m)))) ->
  go_to_state (S (S fuel)) deliver_product m =
    let m := entered deliver_product m in
    let m := money_do (Money.subtract product_price) m in
    let m := dispense_product (emit (PrintBuzz product_name) m) in
    let m := emit (PrintRemainingBalance (Money.amount (money m))) m in
    Ok (entered add_coins m).
Proof.
  intros Hp Hfits. destruct m as [[?|] ? ? ? ? ? ? ?]; simpl in *;
    unfold DeliverProductState_on_entry; simpl; rewrite Hp;
    unfold Money.get_formatted; rewrite dollars_printable by done;
    reflexivity.
Qed.

Lemma go_to_state_deliver_product_overflow (fuel : nat) (m : VendingMachine)
    (product_name : string) (product_price : Z) :
  Products.get_product (event m) (products m)
    = Some (product_name, product_price) ->
  ~ printable
      (Money.amount (Money.self_of (Money.subtract product_price (money m)))) ->
  go_to_state (S fuel) deliver_product m = Raise OverflowError.
Proof.
  intros Hp Hfits. destruct m as [[?|] ? ? ? ? ? ? ?]; simpl in *;
    unfold DeliverProductState_on_entry; simpl; rewrite Hp;
    unfold Money.get_formatted; by rewrite dollars_overflow.
Qed.

Lemma coin_exists_true (key : string) (c : Coins.t) (coin : string * Z) :
  Coins.get_coin key c = Some coin -> Coins.coin_exists key c = true.
Proof.
  unfold Coins.get_coin, Coins.coin_exists. intros ->.
  apply bool_decide_eq_true_2. eauto.
Qed.

Lemma coin_exists_false (key : string) (c : Coins.t) :
  Coins.get_coin key c = None -> Coins.coin_exists key c = false.
Proof.
  unfold Coins.get_coin, Coins.coin_exists. intros ->.
  apply bool_decide_eq_false_2. intros [? ?]. discriminate.
Qed.

Lemma product_exists_true (key : string) (p : Products.t)
    (product : string * Z) :
  Products.get_product key p = Some product ->
  Products.product_exists key p = true.
Proof.
  unfold Products.get_product, Products.product_exists. intros ->.
  apply bool_decide_eq_true_2. eauto.
Qed.

Lemma product_exists_false (key : string) (p : Products.t) :
  Products.get_product key p = None -> Products.product_exists key p = false.
Proof.
  unfold Products.get_product, Products.product_exists. intros ->.
  apply bool_decide_eq_false_2. intros [? ?]. discriminate.
Qed.

Lemma tick_waiting_coin (fuel : nat) (ev : string) (m : VendingMachine)
    (coin : string * Z) :
  state m = Some waiting -> Coins.get_coin ev (coins m) = Some coin ->
  tick (S fuel) ev m =
    Ok (update_display
          (entered add_coins (money_do (Money.add coin.2) (set_event ev m)))).
Proof.
  intros Hs Hc. machine m. run_tick.
  rewrite (coin_exists_true _ _ _ Hc), Hc. reflexivity.
Qed.

Lemma tick_add_coins_coin (fuel : nat) (ev : string) (m : VendingMachine)
    (coin : string * Z) :
  state m = Some add_coins -> ev <> "RETURN" ->
  Coins.get_coin ev (coins m) = Some coin ->
  tick fuel ev m =
    Ok (update_display (money_do (Money.add coin.2) (set_event ev m))).
Proof.
  intros Hs Hev Hc. machine m. run_tick.
  rewrite bool_decide_eq_false_2 by done.
  rewrite (coin_exists_true _ _ _ Hc), Hc. reflexivity.
Qed.

Lemma tick_add_coins_return (fuel : nat) (m : VendingMachine) :
  state m = Some add_coins -> printable (Money.amount (money m)) ->
  tick (S fuel) "RETURN" m =
    Ok (update_display
          (blink_change_led 3
             (emit (LogReturningChange (Money.amount (money m)))
                (emit (PrintChangeDue (Money.amount (money m)))
                   (entered count_change
                      (money_do Money.clear
                         (set_change_due (Money.amount (money m))
                            (set_event "RETURN" m)))))))).
Proof.
  intros Hs Hfits. machine m. run_tick.
  unfold CountChangeState_on_entry. simpl.
  rewrite dollars_printable by done. reflexivity.
Qed.

Lemma tick_add_coins_return_overflow (fuel : nat) (m : VendingMachine) :
  state m = Some add_coins -> ~ printable (Money.amount (money m)) ->
  tick (S fuel) "RETURN" m = Raise OverflowError.
Proof.
  intros Hs Hfits. machine m. run_tick.
  unfold CountChangeState_on_entry. simpl.
  by rewrite dollars_overflow.
Qed.

Lemma tick_add_coins_buy (fuel : nat) (ev : string) (m : VendingMachine)
    (product_name : string) (product_price : Z) :
  state m = Some add_coins -> ev <> "RETURN" ->
  Coins.get_coin ev (coins m) = None ->
  Products.get_product ev (products m) = Some (product_name, product_price) ->
  product_price <= Money.amount (money m) ->
  printable (Money.amount (money m) - product_price) ->
  tick (S (S fuel)) ev m =
    let m := entered deliver_product (set_event ev m) in
    let m := money_do (Money.subtract product_price) m in
    let m := dispense_product (emit (PrintBuzz product_name) m) in
    let m := emit (PrintRemainingBalance (Money.amount (money m))) m in
    Ok (update_display (entered add_coins m)).
Proof.
  intros Hs Hev Hc Hp Hle Hfits. destruct m as [? ? [a] ? ? ? ? ?].
  simpl in *. subst. run_tick.
  rewrite bool_decide_eq_false_2 by done.
  rewrite (coin_exists_false _ _ Hc), (product_exists_true _ _ _ Hp), Hp.
  simpl. unfold Money.get_amount. simpl.
  rewrite bool_decide_eq_true_2 by lia.
  unfold DeliverProductState_on_entry. simpl. rewrite Hp.
  unfold money_do, Money.subtract, Money.get_formatted. simpl.
  rewrite bool_decide_eq_true_2 by lia. simpl.
  rewrite dollars_printable by done. reflexivity.
Qed.

Lemma tick_add_coins_buy_overflow (fuel : nat) (ev : string)
    (m : VendingMachine) (product_name : string) (product_price : Z) :
  state m = Some add_coins -> ev <> "RETURN" ->
  Coins.get_coin ev (coins m) = None ->
  Products.get_product ev (products m) = Some (product_name, product_price) ->
  product_price <= Money.amount (money m) ->
  ~ printable (Money.amount (money m) - product_price) ->
  tick (S fuel) ev m = Raise OverflowError.
Proof.
  intros Hs Hev Hc Hp Hle Hfits. destruct m as [? ? [a] ? ? ? ? ?].
  simpl in *. subst. run_tick.
  rewrite bool_decide_eq_false_2 by done.
  rewrite (coin_exists_false _ _ Hc), (product_exists_true _ _ _ Hp), Hp.
  simpl. unfold Money.get_amount. simpl.
  rewrite bool_decide_eq_true_2 by lia.
  unfold DeliverProductState_on_entry. simpl. rewrite Hp.
  unfold money_do, Money.subtract, Money.get_formatted. simpl.
  rewrite bool_decide_eq_true_2 by lia. simpl.
  by rewrite dollars_overflow.
Qed.

Lemma tick_add_coins_short (fuel : nat) (ev : string) (m : VendingMachine)
    (product_name : string) (product_price : Z) :
  state m = Some add_coins -> ev <> "RETURN" ->
  Coins.get_coin ev (coins m) = None ->
  Products.get_product ev (products m) = Some (product_name, product_price) ->
  Money.amount (money m) < product_price ->
  tick fuel ev m =
    Ok (update_display
          (emit (PrintInsufficientFunds product_price (Money.amount (money m)))
             (set_event ev m))).
Proof.
  intros Hs Hev Hc Hp Hlt. machine m. run_tick.
  rewrite bool_decide_eq_false_2 by done.
  rewrite (coin_exists_false _ _ Hc), (product_exists_true _ _ _ Hp), Hp.
  simpl. unfold Money.get_amount.
  rewrite bool_decide_eq_false_2 by lia. reflexivity.
Qed.

Lemma tick_unknown (fuel : nat) (ev : string) (m : VendingMachine) :
  state m = Some waiting \/ state m = Some add_coins -> ev <> "RETURN" ->
  Coins.get_coin ev (coins m) = None ->
  Products.get_product ev (products m) = None ->
  tick fuel ev m = Ok (update_display (set_event ev m)).
Proof.
  intros Hs Hev Hc Hp. destruct m as [s e a p c d vs o]. simpl in *.
  destruct Hs as [-> | ->]; run_tick;
    rewrite (coin_exists_false _ _ Hc), (product_exists_false _ _ Hp);
    rewrite bool_decide_eq_false_2 by done; reflexivity.
Qed.

Lemma tick_count_change (fuel : nat) (ev : string) (m : VendingMachine) :
  state m = Some count_change ->
  Forall (λ v, 0 < v) (coin_values m) -> 0 <= change_due m ->
  (Z.to_nat (change_due m) < fuel)%nat ->
  tick fuel ev m =
    let m1 := set_change_due (residue (coin_values m) (change_due m))
                (emits (ReturnCoin <$> greedy (coin_values m) (change_due m))
                   (set_event ev m))
    in Ok (update_display
             (if bool_decide (residue (coin_values m) (change_due m) = 0)
              then entered waiting m1 else m1)).
Proof.
  intros Hs Hpos Hc Hfuel. machine m. unfold tick, update. simpl.
  rewrite CountChangeState_update_spec by (simpl; auto). reflexivity.
Qed.

Lemma coin_signals_app (l1 l2 : list Output) :
  coin_signals (l1 ++ l2) = coin_signals l1 ++ coin_signals l2.
Proof.
  induction l1 as [|o l1 IH]; [reflexivity|].
  destruct o; simpl; rewrite IH; reflexivity.
Qed.

Lemma coin_signals_ReturnCoin (cs : list Z) :
  coin_signals (ReturnCoin <$> cs) = cs.
Proof.
  induction cs as [|c cs IH]; [reflexivity|].
  rewrite fmap_cons. cbn [coin_signals]. by rewrite IH.
Qed.

(** What one turn in count_change does, read from the ledger, the state
    and the coin signals it adds to the output. *)
Lemma tick_count_change_paid (fuel : nat) (ev : string) (m : VendingMachine) :
  state m = Some count_change ->
  Forall (λ v, 0 < v) (coin_values m) -> 0 <= change_due m ->
  (Z.to_nat (change_due m) < fuel)%nat ->
  exists m' l,
    tick fuel ev m = Ok m' /\ money m' = money m /\
    coin_values m' = coin_values m /\
    change_due m' = residue (coin_values m) (change_due m) /\
    out m' = out m ++ l /\
    coin_signals l = greedy (coin_values m) (change_due m) /\
    state m' = if bool_decide (residue (coin_values m) (change_due m) = 0)
               then Some waiting else Some count_change.
Proof.
  intros Hs Hpos Hd Hfuel.
  rewrite tick_count_change by done. cbv zeta.
  generalize (greedy (coin_values m) (change_due m)). intros cs.
  generalize (residue (coin_values m) (change_due m)). intros r.
  case_bool_decide; open_machine m; rewrite <- !app_assoc;
    (eexists; eexists; split; [reflexivity|]);
    do 3 (split; [reflexivity|]); (split; [reflexivity|]);
    (split; [|reflexivity]);
    rewrite !coin_signals_app; simpl; rewrite ?app_nil_r;
    apply coin_signals_ReturnCoin.
Qed.

(** ** Change that cannot be paid out *)

(** C1, as stated, fails: with the denominations 200, 100, 25, 10 and 5
    and a 22-cent product, paying 25, buying and pressing RETURN leaves 3
    cents owing; the next turn hands out nothing, reports nothing but the
    display refresh, and the machine is not waiting but still counting
    change. *)
Lemma unrepresentable_change_not_waiting :
  change_due <$> pen_run = Ok 3 /\
  coin_values <$> pen_run = Ok [200; 100; 25; 10; 5] /\
  state <$> (pen_run ≫= tick 4 "__TIMEOUT__") = Ok (Some count_change) /\
  change_due <$> (pen_run ≫= tick 4 "__TIMEOUT__") = Ok 3 /\
  out <$> (pen_run ≫= tick 4 "__TIMEOUT__") =
    (λ m, out m ++ [DisplayAmount 0]) <$> pen_run /\
  state <$> (pen_run ≫= tick 4 "__TIMEOUT__") <> Ok (Some waiting).
Proof.
  do 5 (split; [vm_compute; reflexivity|]).
  vm_compute. discriminate.
Qed.

(** C1, amended: when the greedy breakdown over positive denominations
    leaves a residue, the turn still terminates (fuel above the amount
    owed is enough), the coins of the breakdown go out and are not taken
    back, no error is reported, and the machine stays in count_change
    with the residue owing, below every denomination; each later turn
    only refreshes the display. *)
Theorem change_return_residue_stays (fuel : nat) (ev : string)
    (m : VendingMachine) :
  state m = Some count_change ->
  Forall (λ v, 0 < v) (coin_values m) -> 0 <= change_due m ->
  (Z.to_nat (change_due m) < fuel)%nat ->
  residue (coin_values m) (change_due m) <> 0 ->
  exists m',
    tick fuel ev m = Ok m' /\
    state m' = Some count_change /\
    money m' = money m /\
    change_due m' = residue (coin_values m) (change_due m) /\
    Forall (λ v, 0 < change_due m' < v) (coin_values m) /\
    out m' = out m ++ (ReturnCoin <$> greedy (coin_values m) (change_due m))
                   ++ [DisplayAmount (Money.amount (money m))] /\
    forall ev', tick fuel ev' m' = Ok (update_display (set_event ev' m')).
Proof.
  intros Hs Hpos Hc Hfuel Hres.
  pose proof (residue_bounds _ Hpos _ Hc) as Hb.
  pose proof (residue_lt _ Hpos _ Hc) as Hlt.
  assert (Hlt' : Forall (λ v, 0 < residue (coin_values m) (change_due m) < v)
                   (coin_values m)).
  { eapply Forall_impl; [exact Hlt|]. simpl. intros. lia. }
  destruct (small_is_residue (coin_values m) _ (proj1 Hb) Hlt) as [Hr Hg].
  rewrite tick_count_change by auto. cbv zeta.
  rewrite bool_decide_eq_false_2 by done.
  eexists. split; [reflexivity|].
  destruct m as [s e a p c d vs o]; simpl in *; subst.
  do 4 (split; [done|]). split; [by rewrite app_assoc|].
  intros ev'. rewrite tick_count_change by (simpl; auto; lia). simpl.
  rewrite Hr, Hg, bool_decide_eq_false_2 by done. simpl.
  rewrite app_nil_r. reflexivity.
Qed.

Lemma change_return_residue_stays_witness :
  exists m', tick 4 "__TIMEOUT__" owing_three = Ok m' /\
             state m' = Some count_change /\ change_due m' = 3.
Proof.
  destruct (change_return_residue_stays 4 "__TIMEOUT__" owing_three)
    as (m' & Ht & Hs & _ & Hc & _).
  - reflexivity.
  - simpl. repeat constructor.
  - simpl. lia.
  - simpl. lia.
  - vm_compute. discriminate.
  - exists m'. split; [exact Ht|]. split; [exact Hs|]. exact Hc.
Defined.

(** ** Scenarios *)

(** C5: in add_coins with 30 cents and the denominations 200, 100, 25, 10
    and 5, RETURN moves the 30 cents from the ledger to [change_due] and
    enters count_change; the next turn of the loop, whatever its event,
    hands back one 25 and then one 5 and nothing else, and ends in waiting
    with nothing in the ledger and nothing owing. *)
Theorem return_thirty (fuel : nat) (ev : string) (m : VendingMachine) :
  state m = Some add_coins -> Money.amount (money m) = 30 ->
  coin_values m = [200; 100; 25; 10; 5] ->
  exists m1 m2,
    tick (S fuel) "RETURN" m = Ok m1 /\
    state m1 = Some count_change /\ change_due m1 = 30 /\
    Money.amount (money m1) = 0 /\
    out m1 = out m ++ [LogClearing 30; LogExiting add_coins;
                       LogEntering count_change; PrintChangeDue 30;
                       LogReturningChange 30; BlinkChangeLed 3;
                       DisplayAmount 0] /\
    tick (S fuel) ev m1 = Ok m2 /\
    out m2 = out m1 ++ [ReturnCoin 25; ReturnCoin 5; LogExiting count_change;
                        LogEntering waiting; DisplayAmount 0] /\
    coin_signals (drop (length (out m1)) (out m2)) = [25; 5] /\
    state m2 = Some waiting /\ Money.amount (money m2) = 0 /\
    change_due m2 = 0.
Proof.
  intros Hs Ha Hv. destruct m as [s e [a] p c d vs o]; simpl in *; subst.
  destruct fuel as [|fuel];
    (eexists; eexists; split; [reflexivity|]; simpl;
     do 3 (split; [reflexivity|]);
     split; [rewrite <- !app_assoc; reflexivity|];
     split; [reflexivity|]; simpl;
     split; [rewrite <- !app_assoc; reflexivity|];
     split; [drop_old_output; reflexivity|]; repeat split).
Qed.

Lemma return_thirty_witness :
  exists m1 m2,
    tick 1 "RETURN" thirty_cents = Ok m1 /\ tick 1 "__TIMEOUT__" m1 = Ok m2 /\
    coin_signals (out m2) = [25; 5] /\ state m2 = Some waiting.
Proof.
  destruct (return_thirty 0 "__TIMEOUT__" thirty_cents)
    as (m1 & m2 & H1 & _ & _ & _ & Ho1 & H2 & Ho2 & _ & Hs & _).
  - reflexivity.
  - reflexivity.
  - vm_compute. reflexivity.
  - exists m1, m2. split; [exact H1|]. split; [exact H2|].
    split; [|exact Hs]. rewrite Ho2, Ho1. reflexivity.
Defined.

(** C6: from waiting with an empty ledger, with a 10-cent coin "10" and
    the product "gum" at 25 cents, three presses of "10" lead to add_coins
    with 30 cents; "gum" then enters deliver_product, whose entry action
    takes exactly 25 off the ledger (the debit succeeds, 5 cents remain),
    fires the dispenser and goes back to add_coins, not to waiting. *)
Theorem scenario_gum (fuel : nat) (m : VendingMachine)
    (coin_name product_name : string) :
  state m = Some waiting -> Money.amount (money m) = 0 ->
  Coins.get_coin "10" (coins m) = Some (coin_name, 10) ->
  Coins.get_coin "gum" (coins m) = None ->
  Products.get_product "gum" (products m) = Some (product_name, 25) ->
  exists m3 m4,
    run (S fuel) ["10"; "10"; "10"] m = Ok m3 /\
    state m3 = Some add_coins /\ Money.amount (money m3) = 30 /\
    tick (S (S fuel)) "gum" m3 = Ok m4 /\
    out m4 = out m3 ++ [LogExiting add_coins; LogEntering deliver_product;
                        LogSubtracted 25 5; PrintBuzz product_name;
                        DispenseProduct; PrintRemainingBalance 5;
                        LogExiting deliver_product; LogEntering add_coins;
                        DisplayAmount 5] /\
    state m4 = Some add_coins /\ Money.amount (money m4) = 5.
Proof.
  intros Hs Ha Hc Hg Hp. destruct m as [s e [a] p c d vs o]; simpl in *; subst.
  eexists. eexists. split.
  { cbn [run]. rewrite (tick_waiting_coin _ _ _ (coin_name, 10)); [|done..].
    simpl.
    rewrite (tick_add_coins_coin _ _ _ (coin_name, 10)); [|done..]. simpl.
    rewrite (tick_add_coins_coin _ _ _ (coin_name, 10)); [|done..]. simpl.
    reflexivity. }
  do 2 (split; [reflexivity|]). split.
  { rewrite (tick_add_coins_buy _ _ _ product_name 25); [|done..].
    reflexivity. }
  simpl. split; [rewrite <- !app_assoc; reflexivity|]. split; reflexivity.
Qed.

Lemma scenario_gum_witness :
  exists m0 m3 m4,
    main_start 1 setup_products setup_coins = Ok m0 /\
    run 1 ["10"; "10"; "10"] m0 = Ok m3 /\
    Money.amount (money m3) = 30 /\
    tick 2 "gum" m3 = Ok m4 /\
    state m4 = Some add_coins /\ Money.amount (money m4) = 5.
Proof.
  eexists.
  edestruct (scenario_gum 0
               (entered waiting (VendingMachine_init setup_products setup_coins))
               "10¢" "GUM")
    as (m3 & m4 & H3 & _ & Ha3 & H4 & _ & Hs4 & Ha4).
  - reflexivity.
  - reflexivity.
  - vm_compute. reflexivity.
  - vm_compute. reflexivity.
  - vm_compute. reflexivity.
  - exists m3, m4. split; [reflexivity|]. split; [exact H3|].
    split; [exact Ha3|]. split; [exact H4|]. split; [exact Hs4|exact Ha4].
Defined.

(** ** Fuel only bounds the run *)

Lemma go_to_state_mono (fuel fuel' : nat) (s : StateName)
    (m m' : VendingMachine) :
  go_to_state fuel s m = Ok m' -> (fuel <= fuel')%nat ->
  go_to_state fuel' s m = Ok m'.
Proof.
  revert fuel' s m m'.
  induction fuel as [|fuel IH]; intros fuel' s m m' H Hle; [discriminate|].
  destruct fuel' as [|fuel']; [lia|].
  cbn [go_to_state] in *. destruct s; cbn [on_entry] in *; try exact H.
  unfold DeliverProductState_on_entry in *.
  destruct (Products.get_product _ _) as [[? ?]|]; [|discriminate].
  destruct (Money.get_formatted _) as [balance|]; [|discriminate].
  cbn [mbind Result_bind] in *. apply IH; [exact H|lia].
Qed.

Lemma return_while_mono (fuel fuel' : nat) (v : Z) (m m' : VendingMachine) :
  return_while fuel v m = Ok m' -> (fuel <= fuel')%nat ->
  return_while fuel' v m = Ok m'.
Proof.
  revert fuel' m.
  induction fuel as [|fuel IH]; intros fuel' m H Hle.
  - cbn [return_while] in H. case_bool_decide as Hc; [discriminate|].
    destruct fuel'; cbn [return_while]; rewrite bool_decide_eq_false_2;
      assumption.
  - destruct fuel' as [|fuel']; [lia|]. cbn [return_while] in *.
    case_bool_decide; [|exact H]. apply IH; [exact H|lia].
Qed.

Lemma return_for_mono (fuel fuel' : nat) (values : list Z)
    (m m' : VendingMachine) :
  return_for fuel values m = Ok m' -> (fuel <= fuel')%nat ->
  return_for fuel' values m = Ok m'.
Proof.
  intros H Hle. revert m H.
  induction values as [|v l IH]; intros m H; [exact H|].
  cbn [return_for] in *.
  destruct (return_while fuel v m) as [m1|] eqn:Hw; [|discriminate].
  rewrite (return_while_mono _ _ _ _ _ Hw Hle). simpl in *. auto.
Qed.

Lemma tick_mono (fuel fuel' : nat) (ev : string) (m m' : VendingMachine) :
  tick fuel ev m = Ok m' -> (fuel <= fuel')%nat -> tick fuel' ev m = Ok m'.
Proof.
  intros H Hle. destruct m as [[s|] e a p c d vs o]; [|exact H].
  unfold tick, update in *. simpl in *.
  destruct (State_update fuel s _) as [m1|] eqn:Hu; [|discriminate].
  enough (Hu' : State_update fuel' s
                  (Build_VendingMachine (Some s) ev a p c d vs o) = Ok m1)
    by (rewrite Hu'; exact H).
  clear H. destruct s; simpl in *.
  - unfold WaitingState_update in *.
    destruct (Coins.coin_exists _ _); [|exact Hu].
    eapply go_to_state_mono; eauto.
  - unfold AddCoinsState_update in *.
    case_bool_decide; [eapply go_to_state_mono; eauto|].
    destruct (Coins.coin_exists _ _); [exact Hu|].
    destruct (Products.product_exists _ _); [|exact Hu].
    destruct (Products.get_product _ _); [|exact Hu].
    case_bool_decide; [eapply go_to_state_mono; eauto|exact Hu].
  - exact Hu.
  - unfold CountChangeState_update in *.
    destruct (return_for fuel _ _) as [m2|] eqn:Hf; [|discriminate].
    rewrite (return_for_mono _ _ _ _ _ Hf Hle). simpl in *.
    case_bool_decide; [eapply go_to_state_mono; eauto|exact Hu].
Qed.

(** ** Every turn is one of the transitions *)

(** Whatever the denominations, the change loop touches only
    [change_due] and hands out coins. *)
Lemma return_while_frame (fuel : nat) (v : Z) (m m' : VendingMachine) :
  return_while fuel v m = Ok m' ->
  exists cs d, m' = set_change_due d (emits (ReturnCoin <$> cs) m).
Proof.
  revert m. induction fuel as [|fuel IH]; intros m H; cbn [return_while] in H.
  - case_bool_decide; [discriminate|]. injection H as <-.
    exists [], (change_due m). destruct m; simpl. by rewrite app_nil_r.
  - case_bool_decide.
    + apply IH in H as (cs & d & ->). exists (v :: cs), d.
      destruct m; simpl. by rewrite <- app_assoc.
    + injection H as <-.
      exists [], (change_due m). destruct m; simpl. by rewrite app_nil_r.
Qed.

Lemma return_for_frame (fuel : nat) (values : list Z) (m m' : VendingMachine) :
  return_for fuel values m = Ok m' ->
  exists cs d, m' = set_change_due d (emits (ReturnCoin <$> cs) m).
Proof.
  revert m. induction values as [|v l IH]; intros m H; cbn [return_for] in H.
  - injection H as <-.
    exists [], (change_due m). destruct m; simpl. by rewrite app_nil_r.
  - destruct (return_while fuel v m) as [m1|] eqn:Hw; [|discriminate].
    apply return_while_frame in Hw as (cs1 & d1 & ->).
    apply IH in H as (cs2 & d2 & ->). exists (cs1 ++ cs2), d2.
    destruct m; simpl. by rewrite fmap_app, app_assoc.
Qed.

Lemma get_coin_cases (key : string) (c : Coins.t) :
  (exists coin, Coins.get_coin key c = Some coin) \/
  Coins.get_coin key c = None.
Proof. destruct (Coins.get_coin key c); eauto. Qed.

Lemma get_product_cases (key : string) (p : Products.t) :
  (exists name price, Products.get_product key p = Some (name, price)) \/
  Products.get_product key p = None.
Proof. destruct (Products.get_product key p) as [[? ?]|]; eauto. Qed.

(** Every turn that returns took one of the transitions. *)
Lemma tick_step (fuel : nat) (ev : string) (m m' : VendingMachine) :
  tick fuel ev m = Ok m' -> step m ev m'.
Proof.
  intros H. destruct (state m) as [[| | |]|] eqn:Hs.
  - destruct (get_coin_cases ev (coins m)) as [[coin Hc]|Hc].
    { destruct fuel as [|fuel].
      - machine m. revert H. run_tick.
        rewrite (coin_exists_true _ _ _ Hc). discriminate.
      - rewrite (tick_waiting_coin _ _ _ _ Hs Hc) in H. injection H as <-.
        by apply step_waiting_coin. }
    destruct (get_product_cases ev (products m)) as [(pn & pp & Hp)|Hp].
    { pose proof (step_waiting_product m ev (pn, pp) Hs Hc Hp) as Hstep.
      machine m. revert H. run_tick.
      rewrite (coin_exists_false _ _ Hc), (product_exists_true _ _ _ Hp).
      intros [= <-]. exact Hstep. }
    destruct (decide (ev = "RETURN")) as [Hev|Hev].
    { pose proof (step_waiting_return m ev Hs Hc Hp Hev) as Hstep.
      machine m. revert H. run_tick.
      rewrite (coin_exists_false _ _ Hc), (product_exists_false _ _ Hp).
      intros [= <-]. exact Hstep. }
    rewrite tick_unknown in H by auto. injection H as <-.
    by apply step_unknown; auto.
  - destruct (decide (ev = "RETURN")) as [->|Hev].
    { destruct fuel as [|fuel]; [machine m; discriminate|].
      destruct (decide (printable (Money.amount (money m)))) as [Hfits|Hfits].
      - rewrite tick_add_coins_return in H by done. injection H as <-.
        by apply step_add_return.
      - rewrite tick_add_coins_return_overflow in H by done. discriminate. }
    destruct (get_coin_cases ev (coins m)) as [[coin Hc]|Hc].
    { rewrite (tick_add_coins_coin _ _ _ _ Hs Hev Hc) in H.
      injection H as <-. by apply step_add_coin. }
    destruct (get_product_cases ev (products m)) as [(pn & pp & Hp)|Hp].
    { destruct (Z_le_gt_dec pp (Money.amount (money m))) as [Hle|Hgt].
      - destruct fuel as [|[|fuel]].
        + machine m. revert H. run_tick.
          rewrite bool_decide_eq_false_2 by done.
          rewrite (coin_exists_false _ _ Hc), (product_exists_true _ _ _ Hp), Hp.
          simpl. unfold Money.get_amount.
          rewrite bool_decide_eq_true_2 by lia. discriminate.
        + machine m. revert H. run_tick.
          rewrite bool_decide_eq_false_2 by done.
          rewrite (coin_exists_false _ _ Hc), (product_exists_true _ _ _ Hp), Hp.
          simpl. unfold Money.get_amount.
          rewrite bool_decide_eq_true_2 by lia.
          unfold DeliverProductState_on_entry. simpl. rewrite Hp.
          destruct (Money.get_formatted _); discriminate.
        + destruct (decide (printable (Money.amount (money m) - pp)))
            as [Hfits|Hfits].
          * rewrite (tick_add_coins_buy _ _ _ pn pp) in H by done.
            cbv zeta in H. injection H as <-.
            pose proof (step_add_buy m ev pn pp Hs Hev Hc Hp Hle Hfits)
              as Hstep.
            machine m. unfold Money.subtract in *. simpl in *.
            rewrite bool_decide_eq_true_2 in * by lia. exact Hstep.
          * rewrite (tick_add_coins_buy_overflow _ _ _ pn pp) in H by done.
            discriminate.
      - rewrite (tick_add_coins_short _ _ _ pn pp) in H by (done || lia).
        injection H as <-. apply (step_add_short _ _ pn pp); (done || lia). }
    rewrite tick_unknown in H by auto. injection H as <-.
    by apply step_unknown; auto.
  - machine m. injection H as <-. by apply step_deliver_idle.
  - destruct m as [s e a p c d vs o]; simpl in Hs; subst s.
    unfold tick, update in H. simpl in H. unfold CountChangeState_update in H.
    destruct (return_for fuel _ _) as [m1|] eqn:Hf; [|discriminate].
    simpl in H. case_bool_decide as Hd.
    + destruct fuel as [|fuel]; [discriminate|].
      rewrite go_to_state_plain in H by auto. injection H as <-.
      by eapply step_count_paid.
    + injection H as <-. by eapply step_count_owing.
  - machine m. injection H as <-. by apply step_no_state.
Qed.


(** ** Reachable machines *)

Lemma machine_of_ok (r : Result VendingMachine) :
  is_ok r = true -> r = Ok (machine_of r).
Proof. destruct r; [reflexivity|discriminate]. Qed.

Lemma reachable_run (products : Products.t) (coins : Coins.t) (fuel : nat)
    (evs : list string) (m m' : VendingMachine) :
  reachable products coins m -> run fuel evs m = Ok m' ->
  reachable products coins m'.
Proof.
  revert m. induction evs as [|ev evs IH]; intros m Hr H; cbn [run] in H.
  - by injection H as <-.
  - destruct (tick fuel ev m) as [m1|] eqn:Ht; [|discriminate].
    simpl in H. eapply IH; [|exact H]. by eapply reachable_tick.
Qed.

Lemma reachable_main_run (products : Products.t) (coins : Coins.t)
    (fuel : nat) (evs : list string) :
  is_ok (main_run fuel products coins evs) = true ->
  reachable products coins (machine_of (main_run fuel products coins evs)).
Proof.
  intros H. apply machine_of_ok in H. revert H.
  generalize (machine_of (main_run fuel products coins evs)). intros m.
  unfold main_run.
  destruct (main_start fuel products coins) as [m0|] eqn:H0; [|discriminate].
  simpl. apply reachable_run. by eapply reachable_start.
Qed.

Lemma main_start_inv (fuel : nat) (products : Products.t) (coins : Coins.t)
    (m : VendingMachine) :
  main_start fuel products coins = Ok m ->
  m = entered waiting (VendingMachine_init products coins).
Proof.
  unfold main_start. destruct fuel as [|fuel]; [discriminate|].
  rewrite go_to_state_plain by auto. by intros [= <-].
Qed.

(** ** The delivery state *)

Lemma step_resting (m m' : VendingMachine) (ev : string) :
  step m ev m' -> resting m -> resting m'.
Proof.
  unfold resting.
  intros Hstep Hrest; inversion Hstep; subst;
    try (apply return_for_frame in H0 as (cs & d & ->));
    machine m; intuition congruence.
Qed.

(** C9: deliver_product is never the state between two turns of the
    event loop: every reachable machine is in waiting, add_coins or
    count_change, because the entry action of deliver_product, whenever it
    returns, has ended in add_coins within the transition that entered
    it.  It returns for every product the catalogue knows as long as the
    balance left after the debit can be shown in dollars; beyond the
    floats it raises OverflowError, which ends the event loop. *)
Theorem deliver_product_transient (catalogue : Products.t)
    (denominations : Coins.t) (m : VendingMachine) :
  reachable catalogue denominations m ->
  (state m = Some waiting \/ state m = Some add_coins \/
   state m = Some count_change) /\
  state m <> Some deliver_product /\
  (forall fuel m0 m', go_to_state fuel deliver_product m0 = Ok m' ->
                      state m' = Some add_coins) /\
  (forall fuel m0 product_name price,
     Products.get_product (event m0) (products m0)
       = Some (product_name, price) ->
     (printable
        (Money.amount (Money.self_of (Money.subtract price (money m0)))) ->
      exists m', go_to_state (S (S fuel)) deliver_product m0 = Ok m' /\
                 state m' = Some add_coins) /\
     (~ printable
          (Money.amount (Money.self_of (Money.subtract price (money m0)))) ->
      go_to_state (S (S fuel)) deliver_product m0 = Raise OverflowError)).
Proof.
  intros Hr.
  assert (Hrest : resting m).
  { induction Hr as [fuel m H|fuel ev m m' _ IH H].
    - apply main_start_inv in H as ->. left. reflexivity.
    - eapply step_resting; [eapply tick_step|]; eauto. }
  split; [exact Hrest|]. split.
  { destruct Hrest as [H|[H|H]]; rewrite H; discriminate. }
  assert (Hentry : forall fuel m0 m',
            go_to_state fuel deliver_product m0 = Ok m' ->
            state m' = Some add_coins).
  { intros [|[|fuel]] m0 m' H; [discriminate|..];
      cbn [go_to_state on_entry] in H;
      unfold DeliverProductState_on_entry in H;
      destruct (Products.get_product _ _) as [[? ?]|]; try discriminate;
      destruct (Money.get_formatted _) as [balance|]; try discriminate.
    cbn [mbind Result_bind go_to_state on_entry] in H. injection H as <-.
    destruct m0 as [[?|] ? ? ? ? ? ? ?]; reflexivity. }
  split; [exact Hentry|].
  intros fuel m0 name price Hp. split; intros Hfits.
  - rewrite (go_to_state_deliver_product _ _ name price Hp Hfits). cbv zeta.
    eexists. split; [reflexivity|].
    eapply Hentry.
    apply (go_to_state_deliver_product fuel _ name price Hp Hfits).
  - by apply (go_to_state_deliver_product_overflow _ _ name price).
Qed.

Lemma deliver_product_transient_witness :
  state (machine_of (main_run 2 setup_products setup_coins
                       ["10"; "10"; "10"; "gum"])) <> Some deliver_product /\
  exists m', go_to_state 2 deliver_product (set_event "gum" thirty_cents)
               = Ok m' /\
             state m' = Some add_coins.
Proof.
  destruct (deliver_product_transient setup_products setup_coins
              (machine_of (main_run 2 setup_products setup_coins
                             ["10"; "10"; "10"; "gum"])))
    as (_ & Hstate & _ & Hentry).
  - apply reachable_main_run. vm_compute. reflexivity.
  - split; [exact Hstate|].
    destruct (Hentry O (set_event "gum" thirty_cents) "GUM" 25) as [H _].
    + vm_compute. reflexivity.
    + apply H. vm_compute. reflexivity.
Defined.

(** ** The debit of a delivery *)

Lemma step_debits (m m' : VendingMachine) (ev : string) :
  step m ev m' ->
  exists l, out m' = out m ++ l /\ Forall (λ o, debit_refused o = false) l.
Proof.
  intros Hstep; inversion Hstep; subst; clear Hstep;
    try (apply return_for_frame in H0 as (cs & d & ->));
    machine m; unfold money_do, Money.subtract; simpl;
    rewrite ?bool_decide_eq_true_2 by lia; simpl;
    rewrite <- ?app_assoc; (eexists; split; [reflexivity|]); simpl;
    rewrite ?Forall_app; repeat split; repeat constructor;
    by apply Forall_fmap, Forall_true.
Qed.

(** C7: the debit in the entry action of deliver_product always succeeds:
    in every run of the event loop, for every catalogue, the ledger never
    logs a refused subtraction, since deliver_product is only entered by
    [AddCoinsState.update] after it has checked the balance against the
    price of the very product the entry action then looks up. *)
Theorem debit_never_refused (products : Products.t) (coins : Coins.t)
    (m : VendingMachine) :
  reachable products coins m ->
  Forall (λ o, debit_refused o = false) (out m).
Proof.
  induction 1 as [fuel m H|fuel ev m m' _ IH H].
  - apply main_start_inv in H as ->. repeat constructor.
  - apply tick_step, step_debits in H as (l & -> & Hl).
    apply Forall_app. by split.
Qed.

Lemma debit_never_refused_witness :
  In (LogSubtracted 25 5)
     (out (machine_of (main_run 2 setup_products setup_coins
                         ["10"; "10"; "10"; "gum"]))) /\
  Forall (λ o, debit_refused o = false)
     (out (machine_of (main_run 2 setup_products setup_coins
                         ["10"; "10"; "10"; "gum"]))).
Proof.
  split.
  - vm_compute. tauto.
  - apply (debit_never_refused setup_products setup_coins).
    apply reachable_main_run. vm_compute. reflexivity.
Defined.

(** ** Unknown events *)

Lemma coin_exists_false_inv (key : string) (c : Coins.t) :
  Coins.coin_exists key c = false -> Coins.get_coin key c = None.
Proof.
  unfold Coins.get_coin, Coins.coin_exists. intros H.
  apply bool_decide_eq_false_1 in H. apply eq_None_not_Some. exact H.
Qed.

Lemma product_exists_false_inv (key : string) (p : Products.t) :
  Products.product_exists key p = false -> Products.get_product key p = None.
Proof.
  unfold Products.get_product, Products.product_exists. intros H.
  apply bool_decide_eq_false_1 in H. apply eq_None_not_Some. exact H.
Qed.

(** C2, as stated, fails: the shipped machine reaches count_change, and
    there the idle event of the loop, which is no coin, no product and not
    RETURN, moves it to waiting. *)
Lemma unknown_event_leaves_count_change :
  reachable setup_products setup_coins five_returned /\
  Coins.coin_exists "__TIMEOUT__" (coins five_returned) = false /\
  Products.product_exists "__TIMEOUT__" (products five_returned) = false /\
  "__TIMEOUT__" <> "RETURN" /\
  state five_returned = Some count_change /\
  state <$> tick 1 "__TIMEOUT__" five_returned = Ok (Some waiting) /\
  state <$> tick 1 "__TIMEOUT__" five_returned <> Ok (state five_returned).
Proof.
  split; [apply reachable_main_run; vm_compute; reflexivity|].
  do 2 (split; [vm_compute; reflexivity|]).
  split; [discriminate|].
  do 2 (split; [vm_compute; reflexivity|]).
  vm_compute. discriminate.
Qed.

(** C2, amended: in waiting and in add_coins an event that is no coin,
    no product and not RETURN, sent any number of times, changes neither
    the ledger nor the state nor the change owing.  In count_change the
    event is not looked at.  With positive denominations and nothing
    negative owing, the turn returns, given fuel above the amount owing;
    it leaves the ledger alone, hands back the greedy breakdown of the
    amount owing, keeps what the denominations cannot express as change
    owing, and ends in waiting when nothing is left owing and in
    count_change otherwise; every other event gives the same machine.
    Whatever the denominations, a turn in count_change that returns has
    not touched the ledger and ends in count_change or waiting. *)
Theorem unknown_event_idle (fuel n : nat) (ev : string) (m : VendingMachine) :
  state m = Some waiting \/ state m = Some add_coins ->
  Coins.coin_exists ev (coins m) = false ->
  Products.product_exists ev (products m) = false ->
  ev <> "RETURN" ->
  (exists m', run fuel (replicate n ev) m = Ok m' /\
              money m' = money m /\ state m' = state m /\
              change_due m' = change_due m) /\
  (forall fuel' ev' mc,
     state mc = Some count_change ->
     Forall (λ v, 0 < v) (coin_values mc) -> 0 <= change_due mc ->
     (Z.to_nat (change_due mc) < fuel')%nat ->
     exists mc',
       tick fuel' ev' mc = Ok mc' /\ money mc' = money mc /\
       coin_signals (drop (length (out mc)) (out mc'))
         = greedy (coin_values mc) (change_due mc) /\
       change_due mc' = residue (coin_values mc) (change_due mc) /\
       state mc' = (if bool_decide (change_due mc' = 0)
                    then Some waiting else Some count_change) /\
       forall ev'', tick fuel' ev'' mc = Ok (set_event ev'' mc')) /\
  (forall fuel' ev' mc mc',
     state mc = Some count_change -> tick fuel' ev' mc = Ok mc' ->
     money mc' = money mc /\
     (state mc' = Some count_change \/ state mc' = Some waiting)).
Proof.
  intros Hs Hc Hp Hev. split; [|split].
  - apply coin_exists_false_inv in Hc. apply product_exists_false_inv in Hp.
    revert m Hs Hc Hp. induction n as [|n IH]; intros m Hs Hc Hp.
    + exists m. by repeat split.
    + cbn [replicate run]. rewrite tick_unknown by done. simpl.
      destruct (IH (update_display (set_event ev m))) as (m' & Hr & Hm & Hs' & Hd).
      * by destruct m.
      * by destruct m.
      * by destruct m.
      * exists m'. split; [exact Hr|]. rewrite Hm, Hs', Hd. by destruct m.
  - intros fuel' ev' mc Hsc Hpos Hd Hfuel.
    destruct (tick_count_change_paid fuel' ev' mc Hsc Hpos Hd Hfuel)
      as (mc' & l & Ht & Hm & _ & Hr & Ho & Hq & Hs').
    exists mc'. split; [exact Ht|]. split; [exact Hm|].
    split; [by rewrite Ho, drop_app_length|]. split; [exact Hr|].
    split; [by rewrite Hr|].
    intros ev''. rewrite tick_count_change in Ht |- * by done.
    cbv zeta in *. injection Ht as <-.
    case_bool_decide; by destruct mc as [[?|] ? ? ? ? ? ? ?].
  - intros fuel' ev' mc mc' Hsc Ht. apply tick_step in Ht.
    inversion Ht; subst; try congruence; try (intuition congruence);
      apply return_for_frame in H0 as (cs & d & ->);
      destruct mc as [[?|] ? ? ? ? ? ? ?]; simpl in *; auto.
Qed.

Lemma unknown_event_idle_witness :
  (exists m', run 0 (replicate 3 "__TIMEOUT__") thirty_cents = Ok m' /\
              money m' = money thirty_cents /\
              state m' = state thirty_cents) /\
  (exists mc', tick 6 "__TIMEOUT__" five_returned = Ok mc' /\
               money mc' = money five_returned /\
               coin_signals (drop (length (out five_returned)) (out mc'))
                 = [5] /\
               change_due mc' = 0 /\ state mc' = Some waiting).
Proof.
  destruct (unknown_event_idle 0 3 "__TIMEOUT__" thirty_cents)
    as ((m' & Hr & Hm & Hs & _) & Hcount & _).
  - right. reflexivity.
  - vm_compute. reflexivity.
  - vm_compute. reflexivity.
  - discriminate.
  - split.
    + exists m'. split; [exact Hr|]. split; [exact Hm|exact Hs].
    + destruct (Hcount 6%nat "__TIMEOUT__" five_returned)
        as (mc' & Ht & Hmc & Hq & Hd & Hsc & _).
      * vm_compute. reflexivity.
      * vm_compute. repeat constructor.
      * vm_compute. discriminate.
      * vm_compute. lia.
      * assert (Hd0 : change_due mc' = 0)
          by (rewrite Hd; vm_compute; reflexivity).
        exists mc'. split; [exact Ht|]. split; [exact Hmc|].
        split; [rewrite Hq; vm_compute; reflexivity|].
        split; [exact Hd0|].
        rewrite Hsc, Hd0. reflexivity.
Defined.

(** ** Round trip *)

Lemma run_app (fuel : nat) (evs1 evs2 : list string) (m : VendingMachine) :
  run fuel (evs1 ++ evs2) m = run fuel evs1 m ≫= run fuel evs2.
Proof.
  revert m. induction evs1 as [|ev evs1 IH]; intros m; [reflexivity|].
  cbn [app run]. destruct (tick fuel ev m); [|reflexivity]. simpl. apply IH.
Qed.

(** Coins pressed in add_coins add up in the ledger. *)
Lemma run_add_coins (fuel : nat) (keys : list string) (m : VendingMachine) :
  state m = Some add_coins -> Forall (coin_key (coins m)) keys ->
  exists m' l,
    run fuel keys m = Ok m' /\ state m' = Some add_coins /\
    Money.amount (money m')
      = Money.amount (money m) + coins_total (coins m) keys /\
    coins m' = coins m /\ products m' = products m /\
    coin_values m' = coin_values m /\ change_due m' = change_due m /\
    out m' = out m ++ l /\ quiet l.
Proof.
  revert m. induction keys as [|key keys IH]; intros m Hs Hk.
  - exists m, []. simpl. rewrite app_nil_r, Z.add_0_r. by repeat split.
  - apply Forall_cons in Hk as [[[coin Hc] Hne] Hk].
    cbn [run]. rewrite (tick_add_coins_coin _ _ _ coin) by done. simpl.
    destruct (IH (update_display (money_do (Money.add coin.2)
                                    (set_event key m))))
      as (m' & l & Hr & Hs' & Ha & Hcs & Hps & Hvs & Hd & Ho & Hq).
    { by destruct m. }
    { by destruct m. }
    exists m', ([LogAdded coin.2 (Money.amount (money m) + coin.2);
                 DisplayAmount (Money.amount (money m) + coin.2)] ++ l).
    split; [exact Hr|]. split; [exact Hs'|].
    rewrite Ha, Hcs, Hps, Hvs, Hd, Ho. rewrite Hc.
    destruct m as [s e [a] p c d vs o]; simpl in *.
    repeat split; try lia.
    + by rewrite <- !app_assoc.
    + exact Hq.
Qed.

(** Paying the exact price of a product that is not also a coin key,
    buying it and pressing RETURN: nothing is owing, the next turn hands
    back no coin, and the machine is waiting with an empty ledger. *)
Lemma round_trip_any_catalogue (fuel : nat) (ev : string) (m : VendingMachine)
    (keys : list string) (product_key product_name : string) (price : Z) :
  state m = Some waiting -> Money.amount (money m) = 0 ->
  keys <> [] -> Forall (coin_key (coins m)) keys ->
  coins_total (coins m) keys = price ->
  Products.get_product product_key (products m) = Some (product_name, price) ->
  Coins.get_coin product_key (coins m) = None -> product_key <> "RETURN" ->
  Forall (λ v, 0 < v) (coin_values m) ->
  exists m1 m2 l,
    run (S (S fuel)) (keys ++ [product_key; "RETURN"]) m = Ok m1 /\
    state m1 = Some count_change /\ change_due m1 = 0 /\
    tick (S fuel) ev m1 = Ok m2 /\
    state m2 = Some waiting /\ Money.amount (money m2) = 0 /\
    change_due m2 = 0 /\
    out m2 = out m ++ l /\ coin_signals l = [] /\
    In DispenseProduct l /\ In (PrintChangeDue 0) l.
Proof.
  intros Hs Ha Hne Hk Ht Hp Hpc Hpr Hpos.
  destruct keys as [|key keys]; [done|]. clear Hne.
  apply Forall_cons in Hk as [[[coin Hc] Hkr] Hk].
  cbn [app run]. rewrite (tick_waiting_coin _ _ _ coin) by done. simpl.
  set (ma := update_display _).
  destruct (run_add_coins (S (S fuel)) keys ma)
    as (mb & l & Hr & Hsb & Hab & Hcb & Hpb & Hvb & Hdb & Hob & Hq).
  { subst ma. by open_machine m. }
  { subst ma. open_machine m. exact Hk. }
  rewrite run_app, Hr. cbn [mbind Result_bind run].
  subst ma.
  assert (Hbal : Money.amount (money mb) = price).
  { rewrite <- Ht. cbn [coins_total foldr]. rewrite Hc.
    open_machine m. unfold coins_total in Hab. lia. }
  assert (Hcm : coins mb = coins m) by (by open_machine m).
  assert (Hpm : products mb = products m) by (by open_machine m).
  assert (Hvm : coin_values mb = coin_values m) by (by open_machine m).
  assert (Hom : exists l', out mb = out m ++ l' /\ coin_signals l' = []).
  { open_machine m. rewrite Hob, <- !app_assoc.
    eexists. split; [reflexivity|]. exact Hq. }
  destruct Hom as (l' & Hom & Hq').
  clear Hr Hab Hcb Hpb Hvb Hdb Hob Ht Hk Hc.
  destruct mb as [sb eb [ab] pb cb db vb ob].
  simpl in Hsb, Hbal, Hcm, Hpm, Hvm, Hom. subst sb ab cb pb vb ob.
  rewrite (tick_add_coins_buy _ _ _ product_name price);
    [|done|done|done|done|simpl; lia
     |simpl; rewrite Z.sub_diag; exact printable_0].
  unfold money_do, Money.subtract. simpl.
  rewrite bool_decide_eq_true_2 by lia. simpl.
  rewrite !Z.sub_diag.
  cbn [run]. rewrite tick_add_coins_return by (done || exact printable_0).
  simpl.
  pose proof (small_is_residue (coin_values m) 0 (Z.le_refl 0) Hpos)
    as [Hres Hgr].
  eexists. eexists. eexists.
  split; [reflexivity|]. split; [reflexivity|]. split; [reflexivity|].
  split.
  { rewrite tick_count_change; [|done|done|simpl; lia|simpl; lia].
    cbv zeta. cbn [coin_values change_due]. rewrite Hres, Hgr.
    rewrite bool_decide_eq_true_2 by done. reflexivity. }
  cbn. do 3 (split; [reflexivity|]).
  rewrite <- !app_assoc. split; [reflexivity|].
  split; [|rewrite !in_app_iff; simpl; tauto].
  rewrite !coin_signals_app. simpl. rewrite Hq'. reflexivity.
Qed.

(** ** The shipped catalogues *)

Lemma divide_5 (x : Z) : x mod 5 = 0 -> (5 | x).
Proof. intros H. apply Z.mod_divide; [lia|exact H]. Qed.

Lemma shipped_coins_facts :
  map_Forall (λ (_ : string) (coin : string * Z), 0 < coin.2 /\ (5 | coin.2))
    (Coins.denominations setup_coins).
Proof.
  unfold setup_coins. cbn [Coins.add_coin Coins.init Coins.denominations].
  repeat (apply map_Forall_insert_2;
          [split; [reflexivity|apply divide_5; reflexivity]|]).
  apply map_Forall_empty.
Qed.

Lemma shipped_products_facts :
  map_Forall (λ (key : string) (product : string * Z),
                0 < product.2 /\ (5 | product.2) /\
                Coins.get_coin key setup_coins = None /\ key <> "RETURN")
    (Products.items setup_products).
Proof.
  unfold setup_products.
  cbn [Products.add_product Products.init Products.items].
  repeat (apply map_Forall_insert_2;
          [split; [reflexivity|];
           split; [apply divide_5; reflexivity|];
           split; [vm_compute; reflexivity|discriminate]|]).
  apply map_Forall_empty.
Qed.

Lemma shipped_coin_key (key : string) :
  is_Some (Coins.get_coin key setup_coins) -> coin_key setup_coins key.
Proof.
  intros H. split; [exact H|]. intros ->.
  destruct H as [coin H]. vm_compute in H. discriminate.
Qed.

Lemma shipped_start_values :
  coin_values shipped_start = [200; 100; 25; 10; 5].
Proof. vm_compute. reflexivity. Qed.

(** C8: for every product of the shipped catalogue and every sequence of
    coin presses adding up to exactly its price, starting from the freshly
    started machine (waiting, empty ledger): coins, product, RETURN leave
    nothing owing; the turn that follows hands back no coin, and the
    machine is waiting with an empty ledger. *)
Theorem round_trip_exact_price (ev : string) (keys : list string)
    (product_key product_name : string) (price : Z) :
  Products.get_product product_key setup_products
    = Some (product_name, price) ->
  Forall (λ key, is_Some (Coins.get_coin key setup_coins)) keys ->
  coins_total setup_coins keys = price ->
  main_start 1 setup_products setup_coins = Ok shipped_start /\
  state shipped_start = Some waiting /\
  Money.amount (money shipped_start) = 0 /\
  exists m1 m2 l,
    run 2 (keys ++ [product_key; "RETURN"]) shipped_start = Ok m1 /\
    state m1 = Some count_change /\ change_due m1 = 0 /\
    tick 1 ev m1 = Ok m2 /\
    state m2 = Some waiting /\ Money.amount (money m2) = 0 /\
    change_due m2 = 0 /\
    out m2 = out shipped_start ++ l /\ coin_signals l = [] /\
    In DispenseProduct l /\ In (PrintChangeDue 0) l.
Proof.
  intros Hp Hk Ht. do 3 (split; [reflexivity|]).
  pose proof (map_Forall_lookup_1 _ _ _ _ shipped_products_facts Hp)
    as (Hpos & _ & Hpc & Hpr).
  simpl in Hpos.
  apply (round_trip_any_catalogue 0 ev shipped_start keys
           product_key product_name price).
  - reflexivity.
  - reflexivity.
  - intros ->. simpl in Ht. lia.
  - eapply Forall_impl; [exact Hk|]. apply shipped_coin_key.
  - exact Ht.
  - exact Hp.
  - exact Hpc.
  - exact Hpr.
  - rewrite shipped_start_values. repeat constructor.
Qed.

Lemma round_trip_exact_price_witness :
  exists m1 m2 l,
    run 2 (["10"; "10"; "5"] ++ ["gum"; "RETURN"]) shipped_start = Ok m1 /\
    change_due m1 = 0 /\ tick 1 "__TIMEOUT__" m1 = Ok m2 /\
    state m2 = Some waiting /\
    out m2 = out shipped_start ++ l /\ coin_signals l = [].
Proof.
  destruct (round_trip_exact_price "__TIMEOUT__" ["10"; "10"; "5"]
              "gum" "GUM" 25)
    as (_ & _ & _ & m1 & m2 & l & Hr & _ & Hd & Ht & Hs & _ & _ & Ho & Hq & _).
  - vm_compute. reflexivity.
  - repeat constructor; vm_compute; eauto.
  - vm_compute. reflexivity.
  - exists m1, m2, l. repeat split; assumption.
Defined.

(** ** Change is always exact in the shipped machine *)

Lemma return_for_result (fuel : nat) (values : list Z) (m m1 : VendingMachine) :
  Forall (λ v, 0 < v) values -> 0 <= change_due m ->
  return_for fuel values m = Ok m1 ->
  m1 = set_change_due (residue values (change_due m))
         (emits (ReturnCoin <$> greedy values (change_due m)) m).
Proof.
  intros Hpos Hc H.
  apply (return_for_mono _ (fuel `max` Z.to_nat (change_due m))) in H; [|lia].
  rewrite return_for_spec in H by (done || lia). by injection H as <-.
Qed.

Lemma residue_shipped (d : Z) :
  (5 | d) -> residue [200; 100; 25; 10; 5] d = 0.
Proof.
  intros Hd. unfold residue. cbn [fold_left].
  rewrite !Z.mod_mod_divide by (apply divide_5; reflexivity).
  by apply Z.mod0_divide.
Qed.

Lemma shipped_values_positive :
  Forall (λ v, 0 < v) [200; 100; 25; 10; 5].
Proof. repeat constructor. Qed.

Lemma step_shipped_inv (m m' : VendingMachine) (ev : string) :
  step m ev m' -> shipped_inv m -> shipped_inv m'.
Proof.
  unfold shipped_inv.
  intros Hstep (Hp & Hc & Hv & Ha0 & Ha5 & Hd0 & Hd5).
  inversion Hstep; subst; clear Hstep.
  1-2, 4-6, 10: by open_machine m.
  - rewrite Hc in H0.
    destruct (map_Forall_lookup_1 _ _ _ _ shipped_coins_facts H0) as [? ?].
    open_machine m. repeat split; try done; [lia|by apply Z.divide_add_r].
  - open_machine m. repeat split; try done. apply Z.divide_0_r.
  - rewrite Hc in H1.
    destruct (map_Forall_lookup_1 _ _ _ _ shipped_coins_facts H1) as [? ?].
    open_machine m. repeat split; try done; [lia|by apply Z.divide_add_r].
  - rewrite Hp in H2.
    destruct (map_Forall_lookup_1 _ _ _ _ shipped_products_facts H2)
      as (? & ? & _).
    open_machine m. rewrite bool_decide_eq_true_2 by lia. simpl in *.
    repeat split; try done; [lia|by apply Z.divide_sub_r].
  - apply return_for_result in H0;
      [|rewrite Hv; apply shipped_values_positive|by destruct m].
    rewrite Hv in H0.
    replace (change_due (set_event ev m)) with (change_due m) in H0
      by (by destruct m).
    rewrite residue_shipped in H0 by done.
    subst m1. open_machine m; repeat split; try done; apply Z.divide_0_r.
  - apply return_for_result in H0;
      [|rewrite Hv; apply shipped_values_positive|by destruct m].
    rewrite Hv in H0.
    replace (change_due (set_event ev m)) with (change_due m) in H0
      by (by destruct m).
    rewrite residue_shipped in H0 by done.
    subst m1. open_machine m; repeat split; try done; apply Z.divide_0_r.
Qed.

Lemma reachable_shipped_inv (m : VendingMachine) :
  reachable setup_products setup_coins m -> shipped_inv m.
Proof.
  induction 1 as [fuel m H|fuel ev m m' _ IH H].
  - apply main_start_inv in H as ->. unfold shipped_inv.
    split; [reflexivity|]. split; [reflexivity|].
    split; [exact shipped_start_values|]. simpl.
    repeat split; try lia; apply Z.divide_0_r.
  - eapply step_shipped_inv; [eapply tick_step|]; eauto.
Qed.

(** C10: in the shipped machine every coin value and every price is a
    positive multiple of 5; so in every reachable state the ledger and the
    change owing are multiples of 5, the greedy breakdown of the change
    owing leaves no residue, and a machine in count_change always pays out
    in full on its next turn and moves to waiting. *)
Theorem shipped_change_always_exact (m : VendingMachine) :
  reachable setup_products setup_coins m ->
  map_Forall (λ (_ : string) (coin : string * Z), 0 < coin.2 /\ (5 | coin.2))
    (Coins.denominations setup_coins) /\
  map_Forall (λ (_ : string) (product : string * Z),
                0 < product.2 /\ (5 | product.2))
    (Products.items setup_products) /\
  (5 | Money.amount (money m)) /\ (5 | change_due m) /\
  residue (coin_values m) (change_due m) = 0 /\
  (state m = Some count_change ->
   forall ev, exists m',
     tick (S (Z.to_nat (change_due m))) ev m = Ok m' /\
     change_due m' = 0 /\ state m' = Some waiting /\
     coin_signals (drop (length (out m)) (out m'))
       = greedy (coin_values m) (change_due m)).
Proof.
  intros Hr. apply reachable_shipped_inv in Hr
    as (Hp & Hc & Hv & Ha0 & Ha5 & Hd0 & Hd5).
  split; [exact shipped_coins_facts|].
  split.
  { eapply map_Forall_impl; [exact shipped_products_facts|].
    simpl. intros ? ? (? & ? & _). by split. }
  split; [exact Ha5|]. split; [exact Hd5|].
  assert (Hres : residue (coin_values m) (change_due m) = 0)
    by (rewrite Hv; by apply residue_shipped).
  split; [exact Hres|].
  intros Hs ev.
  rewrite tick_count_change;
    [|done|rewrite Hv; apply shipped_values_positive|done|lia].
  cbv zeta. rewrite Hres, bool_decide_eq_true_2 by done.
  eexists. split; [reflexivity|].
  generalize (greedy (coin_values m) (change_due m)). intros cs.
  open_machine m. do 2 (split; [reflexivity|]).
  drop_old_output. rewrite !coin_signals_app. simpl. rewrite !app_nil_r.
  apply coin_signals_ReturnCoin.
Qed.

Lemma shipped_change_always_exact_witness :
  exists m',
    tick (S (Z.to_nat (change_due five_returned))) "__TIMEOUT__" five_returned
      = Ok m' /\
    change_due m' = 0 /\ state m' = Some waiting.
Proof.
  destruct (shipped_change_always_exact five_returned)
    as (_ & _ & _ & _ & _ & H).
  - apply reachable_main_run. vm_compute. reflexivity.
  - destruct (H eq_refl "__TIMEOUT__") as (m' & Ht & Hd & Hs & _).
    exists m'. split; [exact Ht|]. split; [exact Hd|exact Hs].
Defined.

(** * Further properties of the machine *)

(** ** The greedy breakdown *)

Lemma greedy_total (values : list Z) : Forall (λ v, 0 < v) values ->
  forall owed, 0 <= owed ->
  total (greedy values owed) + residue values owed = owed.
Proof.
  unfold residue, total.
  induction 1 as [|v l Hv _ IH]; intros c Hc; simpl; [lia|].
  pose proof (Z.mod_pos_bound c v Hv) as Hm.
  specialize (IH (c mod v) ltac:(lia)).
  rewrite foldr_app.
  assert (Hrep : forall n z, foldr Z.add z (replicate n v) = Z.of_nat n * v + z).
  { induction n as [|n IHn]; intros z; [simpl; lia|].
    cbn [replicate foldr]. rewrite IHn. lia. }
  rewrite Hrep. assert (0 <= c / v) by (apply Z.div_pos; lia).
  rewrite Z2Nat.id by done. pose proof (Z.div_mod c v ltac:(lia)). lia.
Qed.

Lemma greedy_subset (values : list Z) (owed x : Z) :
  x ∈ greedy values owed -> x ∈ values.
Proof.
  revert owed. induction values as [|v l IH]; intros c; simpl.
  - by intros ?%elem_of_nil.
  - rewrite elem_of_app, elem_of_cons.
    intros [->%elem_of_replicate_inv|H]; [by left|right; eauto].
Qed.

Lemma greedy_sorted (values : list Z) (owed : Z) :
  StronglySorted (flip Z.le) values ->
  StronglySorted (flip Z.le) (greedy values owed).
Proof.
  intros Hs. revert owed.
  induction Hs as [|v l Hs IH Hv]; intros c; simpl; [constructor|].
  induction (Z.to_nat (c / v)) as [|n IHn]; simpl; [apply IH|].
  constructor; [exact IHn|].
  apply Forall_forall. intros x Hx. apply elem_of_app in Hx as [Hx|Hx].
  - apply elem_of_replicate_inv in Hx as ->. unfold flip. lia.
  - apply greedy_subset in Hx. rewrite Forall_forall in Hv. by apply Hv.
Qed.

(** ** The denominations used for change *)

#[local] Instance flip_le_total : Total (flip Z.le).
Proof. intros x y. unfold flip. lia. Qed.

#[local] Instance flip_le_transitive : Transitive (flip Z.le).
Proof. intros x y z. unfold flip. lia. Qed.

Lemma get_values_perm (c : Coins.t) : Coins.get_values c ≡ₚ face_values c.
Proof. apply merge_sort_Permutation. Qed.

Lemma get_values_origin (c : Coins.t) (value : Z) :
  value ∈ Coins.get_values c ->
  exists key name, Coins.get_coin key c = Some (name, value).
Proof.
  rewrite get_values_perm. unfold face_values. intros Hv.
  apply list_elem_of_fmap in Hv as ([key [name v]] & -> & Hin).
  apply elem_of_map_to_list in Hin. by exists key, name.
Qed.

(** X1: [get_values] lists exactly the face values of the catalogue, one
    per coin key, largest first; the value of every coin key is in it. *)
Theorem get_values_sorted_permutation (c : Coins.t) :
  StronglySorted (flip Z.le) (Coins.get_values c) /\
  Coins.get_values c ≡ₚ face_values c /\
  length (Coins.get_values c) = size (Coins.denominations c) /\
  (forall key name value,
     Coins.get_coin key c = Some (name, value) ->
     value ∈ Coins.get_values c) /\
  (forall value, value ∈ Coins.get_values c ->
     exists key name, Coins.get_coin key c = Some (name, value)).
Proof.
  unfold Coins.get_values. fold (face_values c).
  split; [apply StronglySorted_merge_sort; apply _|].
  pose proof (get_values_perm c) as Hp. unfold Coins.get_values in Hp.
  fold (face_values c) in Hp.
  split; [exact Hp|]. split.
  { rewrite Hp. unfold face_values.
    by rewrite length_fmap, length_map_to_list. }
  split.
  - intros key name value Hg. rewrite Hp. unfold face_values.
    apply list_elem_of_fmap. exists (key, (name, value)).
    split; [reflexivity|]. by apply elem_of_map_to_list.
  - intros value Hv. apply get_values_origin.
    unfold Coins.get_values. by fold (face_values c).
Qed.

(** ** Paying out change *)

(** X2: a turn in count_change over positive denominations conserves the
    amount owed: the coins it hands back and what it still owes add up to
    what was owed before; the ledger is not touched; and the machine goes
    to waiting exactly when nothing is left owing. *)
Theorem change_payout_conserves (fuel : nat) (ev : string)
    (m : VendingMachine) :
  state m = Some count_change ->
  Forall (λ v, 0 < v) (coin_values m) -> 0 <= change_due m ->
  (Z.to_nat (change_due m) < fuel)%nat ->
  exists m',
    tick fuel ev m = Ok m' /\ money m' = money m /\
    total (coin_signals (drop (length (out m)) (out m'))) + change_due m'
      = change_due m /\
    0 <= change_due m' /\
    (state m' = Some waiting <-> change_due m' = 0) /\
    (state m' = Some count_change <-> change_due m' <> 0).
Proof.
  intros Hs Hpos Hd Hfuel.
  destruct (tick_count_change_paid fuel ev m Hs Hpos Hd Hfuel)
    as (m' & l & Ht & Hm & _ & Hr & Ho & Hc & Hs').
  exists m'. split; [exact Ht|]. split; [exact Hm|].
  rewrite Ho, drop_app_length, Hc, Hr. split; [by apply greedy_total|].
  split; [by apply residue_bounds|].
  rewrite Hs'. case_bool_decide; split; split; congruence.
Qed.

Lemma change_payout_conserves_witness :
  exists m', tick 4 "__TIMEOUT__" owing_three = Ok m' /\
             money m' = money owing_three /\ change_due m' <> 0 /\
             state m' = Some count_change.
Proof.
  destruct (change_payout_conserves 4 "__TIMEOUT__" owing_three)
    as (m' & Ht & Hm & Hsum & _ & _ & Hs).
  - reflexivity.
  - simpl. repeat constructor.
  - simpl. lia.
  - simpl. lia.
  - exists m'. split; [exact Ht|]. split; [exact Hm|].
    assert (Hne : change_due m' <> 0).
    { vm_compute in Ht. injection Ht as <-. simpl. lia. }
    split; [exact Hne|]. by apply Hs.
Defined.

(** X3: the coins a turn in count_change hands back are denominations of
    the machine, and when the denominations are in descending order (as
    [get_values] leaves them) the coins come out largest first. *)
Theorem change_payout_descending (fuel : nat) (ev : string)
    (m : VendingMachine) :
  state m = Some count_change ->
  Forall (λ v, 0 < v) (coin_values m) -> 0 <= change_due m ->
  (Z.to_nat (change_due m) < fuel)%nat ->
  exists m',
    tick fuel ev m = Ok m' /\
    (forall x, x ∈ coin_signals (drop (length (out m)) (out m')) ->
               x ∈ coin_values m) /\
    (StronglySorted (flip Z.le) (coin_values m) ->
     StronglySorted (flip Z.le)
       (coin_signals (drop (length (out m)) (out m')))).
Proof.
  intros Hs Hpos Hd Hfuel.
  destruct (tick_count_change_paid fuel ev m Hs Hpos Hd Hfuel)
    as (m' & l & Ht & _ & _ & _ & Ho & Hc & _).
  exists m'. split; [exact Ht|]. rewrite Ho, drop_app_length, Hc. split.
  - intros x. apply greedy_subset.
  - apply greedy_sorted.
Qed.

Lemma change_payout_descending_witness :
  exists m', tick 6 "__TIMEOUT__" five_returned = Ok m' /\
    StronglySorted (flip Z.le)
      (coin_signals (drop (length (out five_returned)) (out m'))).
Proof.
  destruct (change_payout_descending 6 "__TIMEOUT__" five_returned)
    as (m' & Ht & _ & Hsorted).
  - vm_compute. reflexivity.
  - vm_compute. repeat constructor.
  - vm_compute. discriminate.
  - vm_compute. lia.
  - exists m'. split; [exact Ht|]. apply Hsorted.
    replace (coin_values five_returned) with [200; 100; 25; 10; 5]
      by (vm_compute; reflexivity).
    repeat constructor; unfold flip; lia.
Defined.

(** ** Denominations that are not positive *)

Lemma return_for_app (fuel : nat) (l1 l2 : list Z) (m : VendingMachine) :
  return_for fuel (l1 ++ l2) m = return_for fuel l1 m ≫= return_for fuel l2.
Proof.
  revert m. induction l1 as [|v l1 IH]; intros m; [reflexivity|].
  cbn [app return_for]. destruct (return_while fuel v m); [|reflexivity].
  simpl. apply IH.
Qed.

Lemma return_while_raises (fuel : nat) (v : Z) (m : VendingMachine) (e : Error) :
  return_while fuel v m = Raise e -> e = OutOfFuel.
Proof.
  revert m. induction fuel as [|fuel IH]; intros m; cbn [return_while];
    case_bool_decide; try discriminate; [by intros [= <-]|apply IH].
Qed.

Lemma return_for_raises (fuel : nat) (values : list Z) (m : VendingMachine)
    (e : Error) :
  return_for fuel values m = Raise e -> e = OutOfFuel.
Proof.
  revert m. induction values as [|v l IH]; intros m; cbn [return_for];
    [discriminate|].
  destruct (return_while fuel v m) as [m1|e1] eqn:Hw; simpl.
  - apply IH.
  - intros [= <-]. by eapply return_while_raises.
Qed.

(** X4: a denomination that is zero or negative makes the change loop run
    forever: in count_change, with nothing negative owing and only
    positive denominations before it in the list, no amount of fuel lets
    the turn return. *)
Theorem nonpositive_coin_hangs (fuel : nat) (ev : string) (m : VendingMachine)
    (before after : list Z) (v : Z) :
  state m = Some count_change ->
  coin_values m = before ++ v :: after ->
  Forall (λ x, 0 < x) before -> v <= 0 -> 0 <= change_due m ->
  tick fuel ev m = Raise OutOfFuel.
Proof.
  intros Hs Hv Hpos Hle Hd.
  destruct m as [s e a p c d vs o]. simpl in *. subst s vs.
  unfold tick, update. simpl. unfold CountChangeState_update. simpl.
  rewrite return_for_app. cbn [return_for].
  destruct (return_for fuel before _) as [m1|e1] eqn:H1.
  - apply return_for_result in H1; [|done|done]. simpl in H1.
    pose proof (residue_bounds before Hpos d Hd) as Hb.
    cbn [mbind Result_bind].
    rewrite return_while_diverges; [reflexivity|done|].
    subst m1. simpl. lia.
  - apply return_for_raises in H1 as ->. reflexivity.
Qed.

Lemma nonpositive_coin_hangs_witness :
  reachable setup_products token_coins token_returned /\
  tick 1000 "__TIMEOUT__" token_returned = Raise OutOfFuel.
Proof.
  split; [apply reachable_main_run; vm_compute; reflexivity|].
  apply (nonpositive_coin_hangs 1000 "__TIMEOUT__" token_returned [5] [] 0).
  - vm_compute. reflexivity.
  - vm_compute. reflexivity.
  - repeat constructor.
  - lia.
  - vm_compute. discriminate.
Defined.

(** ** The books of the machine *)

Lemma total_app (l1 l2 : list Z) : total (l1 ++ l2) = total l1 + total l2.
Proof. unfold total. induction l1 as [|x l1 IH]; simpl; lia. Qed.

Lemma inserted_app (l1 l2 : list Output) :
  inserted (l1 ++ l2) = inserted l1 + inserted l2.
Proof. induction l1 as [|[] l1 IH]; simpl; lia. Qed.

Lemma debited_app (l1 l2 : list Output) :
  debited (l1 ++ l2) = debited l1 + debited l2.
Proof. induction l1 as [|[] l1 IH]; simpl; lia. Qed.

Lemma dispensed_app (l1 l2 : list Output) :
  dispensed (l1 ++ l2) = (dispensed l1 + dispensed l2)%nat.
Proof. induction l1 as [|[] l1 IH]; simpl; lia. Qed.

Lemma debits_app (l1 l2 : list Output) :
  debits (l1 ++ l2) = (debits l1 + debits l2)%nat.
Proof. induction l1 as [|[] l1 IH]; simpl; lia. Qed.

Lemma accounts_ReturnCoin (cs : list Z) :
  inserted (ReturnCoin <$> cs) = 0 /\ debited (ReturnCoin <$> cs) = 0 /\
  dispensed (ReturnCoin <$> cs) = O /\ debits (ReturnCoin <$> cs) = O.
Proof. induction cs as [|c cs IH]; [done|]. rewrite fmap_cons. exact IH. Qed.

(** The change loop takes off [change_due] exactly what it hands out,
    whatever the denominations. *)
Lemma return_while_frame_total (fuel : nat) (v : Z) (m m' : VendingMachine) :
  return_while fuel v m = Ok m' ->
  exists cs, m' = set_change_due (change_due m - total cs)
                    (emits (ReturnCoin <$> cs) m).
Proof.
  revert m. induction fuel as [|fuel IH]; intros m H; cbn [return_while] in H.
  - case_bool_decide; [discriminate|]. injection H as <-.
    exists []. destruct m; simpl. by rewrite app_nil_r, Z.sub_0_r.
  - case_bool_decide.
    + apply IH in H as (cs & ->). exists (v :: cs).
      destruct m; unfold total; simpl. rewrite <- app_assoc.
      f_equal; try done; lia.
    + injection H as <-.
      exists []. destruct m; simpl. by rewrite app_nil_r, Z.sub_0_r.
Qed.

Lemma return_for_frame_total (fuel : nat) (values : list Z)
    (m m' : VendingMachine) :
  return_for fuel values m = Ok m' ->
  exists cs, m' = set_change_due (change_due m - total cs)
                    (emits (ReturnCoin <$> cs) m).
Proof.
  revert m. induction values as [|v l IH]; intros m H; cbn [return_for] in H.
  - injection H as <-.
    exists []. destruct m; simpl. by rewrite app_nil_r, Z.sub_0_r.
  - destruct (return_while fuel v m) as [m1|] eqn:Hw; [|discriminate].
    apply return_while_frame_total in Hw as (cs1 & ->).
    apply IH in H as (cs2 & ->). exists (cs1 ++ cs2).
    destruct m; simpl. rewrite fmap_app, app_assoc, total_app.
    f_equal; try done; lia.
Qed.

Ltac accounts :=
  rewrite ?inserted_app, ?debited_app, ?dispensed_app, ?debits_app,
    ?coin_signals_app, ?total_app, ?coin_signals_ReturnCoin;
  repeat match goal with
  | |- context [ReturnCoin <$> ?cs] =>
      destruct (accounts_ReturnCoin cs) as (-> & -> & -> & ->)
  end; simpl.

Lemma step_books (m m' : VendingMachine) (ev : string) :
  step m ev m' -> books_balanced m -> books_balanced m'.
Proof.
  unfold books_balanced.
  intros Hstep (Hsum & Hw & Ha & Hc & Hn).
  inversion Hstep; subst; clear Hstep;
    try (apply return_for_frame_total in H0 as (cs & ->));
    open_machine m;
    rewrite ?bool_decide_eq_true_2 by lia; simpl;
    accounts;
    repeat split; intros; simplify_eq; try lia;
    try (destruct Hw as [? ?]; [done|]; lia);
    try (specialize (Ha eq_refl); lia);
    try (specialize (Hc eq_refl); lia).
Qed.

Lemma reachable_books (ps : Products.t) (cs : Coins.t) (m : VendingMachine) :
  reachable ps cs m -> books_balanced m.
Proof.
  induction 1 as [fuel m H|fuel ev m m' _ IH H].
  - apply main_start_inv in H as ->. by repeat split.
  - eapply step_books; [eapply tick_step|]; eauto.
Qed.

(** X5: in every run, for every catalogue, money is conserved: the cents
    credited so far equal the cents debited for products, plus the coins
    handed back, plus what the ledger holds, plus the change owing. *)
Theorem money_is_conserved (ps : Products.t) (cs : Coins.t)
    (m : VendingMachine) :
  reachable ps cs m ->
  inserted (out m)
    = debited (out m) + total (coin_signals (out m))
      + Money.amount (money m) + change_due m.
Proof. intros Hr. by destruct (reachable_books ps cs m Hr) as (? & _). Qed.

Lemma money_is_conserved_witness :
  inserted (out gum_settled) = 30 /\ debited (out gum_settled) = 25 /\
  total (coin_signals (out gum_settled)) = 5 /\
  inserted (out gum_settled)
    = debited (out gum_settled) + total (coin_signals (out gum_settled))
      + Money.amount (money gum_settled) + change_due gum_settled.
Proof.
  do 3 (split; [vm_compute; reflexivity|]).
  apply (money_is_conserved setup_products setup_coins).
  apply reachable_main_run. vm_compute. reflexivity.
Defined.

(** X6: in every run, a machine found waiting holds nothing and owes
    nothing, so all that was credited has been spent or handed back; a
    machine collecting coins owes no change, and a machine counting change
    holds nothing in its ledger. *)
Theorem waiting_means_settled (ps : Products.t) (cs : Coins.t)
    (m : VendingMachine) :
  reachable ps cs m ->
  (state m = Some waiting ->
     Money.amount (money m) = 0 /\ change_due m = 0 /\
     inserted (out m) = debited (out m) + total (coin_signals (out m))) /\
  (state m = Some add_coins -> change_due m = 0) /\
  (state m = Some count_change -> Money.amount (money m) = 0).
Proof.
  intros Hr. destruct (reachable_books ps cs m Hr) as (Hsum & Hw & Ha & Hc & _).
  split; [|by split]. intros Hs. destruct (Hw Hs) as [H1 H2]. lia.
Qed.

Lemma waiting_means_settled_witness :
  state gum_settled = Some waiting /\
  Money.amount (money gum_settled) = 0 /\ change_due gum_settled = 0.
Proof.
  assert (Hs : state gum_settled = Some waiting) by (vm_compute; reflexivity).
  split; [exact Hs|].
  destruct (waiting_means_settled setup_products setup_coins gum_settled)
    as (Hw & _).
  - apply reachable_main_run. vm_compute. reflexivity.
  - destruct (Hw Hs) as (H1 & H2 & _). by split.
Defined.

(** X7: in every run the dispenser has fired exactly once per successful
    debit of the ledger: nothing is dispensed unpaid and nothing is paid
    for without being dispensed. *)
Theorem every_dispense_is_paid (ps : Products.t) (cs : Coins.t)
    (m : VendingMachine) :
  reachable ps cs m -> dispensed (out m) = debits (out m).
Proof. intros Hr. by destruct (reachable_books ps cs m Hr) as (_ & _ & _ & _ & ?). Qed.

Lemma every_dispense_is_paid_witness :
  dispensed (out gum_bought) = 1%nat /\
  dispensed (out gum_bought) = debits (out gum_bought).
Proof.
  split; [vm_compute; reflexivity|].
  apply (every_dispense_is_paid setup_products setup_coins).
  apply reachable_main_run. vm_compute. reflexivity.
Defined.

(** ** Positive denominations *)

Lemma positive_values (cs : Coins.t) :
  positive_coins cs -> Forall (λ v, 0 < v) (Coins.get_values cs).
Proof.
  intros Hpos. apply Forall_forall. intros v Hv.
  apply get_values_origin in Hv as (key & name & Hg).
  apply (map_Forall_lookup_1 _ _ _ _ Hpos Hg).
Qed.

Lemma step_sound_ledger (cs : Coins.t) (m m' : VendingMachine) (ev : string) :
  positive_coins cs -> step m ev m' -> sound_ledger cs m -> sound_ledger cs m'.
Proof.
  unfold sound_ledger.
  intros Hpos Hstep (Hc & Hv & Ha & Hd).
  pose proof (positive_values cs Hpos) as Hvals.
  inversion Hstep; subst; clear Hstep.
  1-2, 4-6, 10: by open_machine m.
  - pose proof (map_Forall_lookup_1 _ _ _ _ Hpos H0).
    open_machine m. repeat split; try done; lia.
  - by open_machine m.
  - pose proof (map_Forall_lookup_1 _ _ _ _ Hpos H1).
    open_machine m. repeat split; try done; lia.
  - open_machine m. rewrite bool_decide_eq_true_2 by lia. simpl.
    repeat split; try done; lia.
  - apply return_for_result in H0; [|by rewrite Hv|by destruct m].
    pose proof (residue_bounds _ Hvals (change_due m) Hd).
    subst m1. open_machine m; repeat split; try done; lia.
  - apply return_for_result in H0; [|by rewrite Hv|by destruct m].
    subst m1. open_machine m; repeat split; try done; lia.
Qed.

Lemma reachable_sound_ledger (ps : Products.t) (cs : Coins.t)
    (m : VendingMachine) :
  positive_coins cs -> reachable ps cs m -> sound_ledger cs m.
Proof.
  intros Hpos. induction 1 as [fuel m H|fuel ev m m' _ IH H].
  - apply main_start_inv in H as ->. by repeat split.
  - eapply step_sound_ledger; [done|eapply tick_step|]; eauto.
Qed.

(** X8: with a catalogue of coins that are all worth more than zero, in
    every run the ledger and the change owing are never negative, whatever
    the prices, and the denominations used for change are those computed
    from the catalogue at construction. *)
Theorem ledger_never_negative (ps : Products.t) (cs : Coins.t)
    (m : VendingMachine) :
  positive_coins cs -> reachable ps cs m ->
  0 <= Money.amount (money m) /\ 0 <= change_due m /\
  coin_values m = Coins.get_values cs.
Proof.
  intros Hpos Hr.
  by destruct (reachable_sound_ledger ps cs m Hpos Hr) as (_ & ? & ? & ?).
Qed.

Lemma shipped_positive_coins : positive_coins setup_coins.
Proof.
  eapply map_Forall_impl; [exact shipped_coins_facts|].
  simpl. by intros ? ? [? _].
Qed.

Lemma ledger_never_negative_witness :
  0 <= Money.amount (money gum_bought) /\ 0 <= change_due gum_bought /\
  coin_values gum_bought = Coins.get_values setup_coins.
Proof.
  apply (ledger_never_negative setup_products setup_coins).
  - exact shipped_positive_coins.
  - apply reachable_main_run. vm_compute. reflexivity.
Defined.



(** ** The transition graph *)

(** X10: the state after a turn is decided by the state before it and one
    test: from waiting the machine goes to add_coins exactly on a coin key
    and otherwise stays; from add_coins it goes to count_change exactly on
    RETURN and otherwise is back in add_coins; from count_change it goes
    to waiting exactly when nothing is left owing and otherwise stays. *)
Theorem transition_graph (fuel : nat) (ev : string) (m m' : VendingMachine) :
  tick fuel ev m = Ok m' ->
  match state m with
  | Some waiting =>
      state m' = if Coins.coin_exists ev (coins m)
                 then Some add_coins else Some waiting
  | Some add_coins =>
      state m' = if bool_decide (ev = "RETURN")
                 then Some count_change else Some add_coins
  | Some count_change =>
      state m' = if bool_decide (change_due m' = 0)
                 then Some waiting else Some count_change
  | Some deliver_product => state m' = Some deliver_product
  | None => state m' = None
  end.
Proof.
  intros H. apply tick_step in H. inversion H; subst; clear H;
    try match goal with
        | Hf : return_for _ _ _ = Ok _ |- _ =>
            apply return_for_frame in Hf as (cs & d & ->)
        end;
    try match goal with
        | Hs : _ \/ _ |- _ => destruct Hs
        end;
    open_machine m;
    try match goal with
        | Hc : Coins.get_coin _ _ = Some _ |- _ =>
            rewrite ?(coin_exists_true _ _ _ Hc)
        | Hc : Coins.get_coin _ _ = None |- _ =>
            rewrite ?(coin_exists_false _ _ Hc)
        end;
    rewrite ?bool_decide_eq_true_2, ?bool_decide_eq_false_2 by done;
    reflexivity.
Qed.

Lemma transition_graph_witness :
  state <$> tick 1 "RETURN" thirty_cents = Ok (Some count_change).
Proof.
  destruct (tick 1 "RETURN" thirty_cents) as [m'|e] eqn:Ht;
    [|vm_compute in Ht; discriminate].
  simpl. f_equal.
  exact (transition_graph 1 "RETURN" thirty_cents m' Ht).
Defined.

(** ** What each state does with an event *)

(** X11: a waiting machine acts on coin keys only.  Any other event
    leaves it waiting with ledger and change owing untouched; it prints
    "insert coins first" if the event is a product key, "no money to
    return" if it is RETURN and no product key, and nothing otherwise,
    then refreshes the display.  No fuel is needed. *)
Theorem waiting_needs_coin (fuel : nat) (ev : string) (m : VendingMachine) :
  state m = Some waiting -> Coins.coin_exists ev (coins m) = false ->
  exists m',
    tick fuel ev m = Ok m' /\ state m' = Some waiting /\
    money m' = money m /\ change_due m' = change_due m /\
    out m' = out m
      ++ (if Products.product_exists ev (products m)
          then [PrintInsertCoinsFirst]
          else if bool_decide (ev = "RETURN") then [PrintNoMoneyToReturn]
          else [])
      ++ [DisplayAmount (Money.amount (money m))].
Proof.
  intros Hs Hc. machine m. run_tick. rewrite Hc.
  destruct (Products.product_exists ev products0);
    [|case_bool_decide]; (eexists; split; [reflexivity|]); simpl;
    rewrite <- ?app_assoc; repeat split; by rewrite ?app_nil_r.
Qed.

Lemma waiting_needs_coin_witness :
  exists m', tick 0 "gum" shipped_start = Ok m' /\
             state m' = Some waiting /\ money m' = money shipped_start.
Proof.
  destruct (waiting_needs_coin 0 "gum" shipped_start)
    as (m' & Ht & Hs & Hm & _).
  - reflexivity.
  - vm_compute. reflexivity.
  - exists m'. split; [exact Ht|]. split; [exact Hs|exact Hm].
Defined.

(** X12: in add_coins, a product key that is not RETURN and not also a
    coin key is decided by the balance alone.  If the price is covered the
    ledger goes down by exactly the price, the dispenser fires once and
    the machine is back in add_coins, provided the balance left can be
    shown in dollars; beyond the floats the turn raises OverflowError.
    If the price is not covered, nothing changes but a message with the
    price and the balance.  No change is owing more than before and no
    coin is handed back. *)
Theorem purchase_decided_by_balance (fuel : nat) (ev : string)
    (m : VendingMachine) (product_name : string) (price : Z) :
  state m = Some add_coins -> ev <> "RETURN" ->
  Coins.coin_exists ev (coins m) = false ->
  Products.get_product ev (products m) = Some (product_name, price) ->
  (price <= Money.amount (money m) ->
   printable (Money.amount (money m) - price) ->
   exists m',
     tick (S (S fuel)) ev m = Ok m' /\ state m' = Some add_coins /\
     change_due m' = change_due m /\
     Money.amount (money m') = Money.amount (money m) - price /\
     out m' = out m ++
       [LogExiting add_coins; LogEntering deliver_product;
        LogSubtracted price (Money.amount (money m) - price);
        PrintBuzz product_name; DispenseProduct;
        PrintRemainingBalance (Money.amount (money m) - price);
        LogExiting deliver_product; LogEntering add_coins;
        DisplayAmount (Money.amount (money m) - price)]) /\
  (price <= Money.amount (money m) ->
   ~ printable (Money.amount (money m) - price) ->
   tick (S (S fuel)) ev m = Raise OverflowError) /\
  (Money.amount (money m) < price ->
   exists m',
     tick (S (S fuel)) ev m = Ok m' /\ state m' = Some add_coins /\
     change_due m' = change_due m /\
     Money.amount (money m') = Money.amount (money m) /\
     out m' = out m ++
       [PrintInsufficientFunds price (Money.amount (money m));
        DisplayAmount (Money.amount (money m))]).
Proof.
  intros Hs Hev Hc Hp. apply coin_exists_false_inv in Hc.
  split; [|split].
  - intros Hle Hfits.
    rewrite (tick_add_coins_buy _ _ _ product_name price) by done.
    cbv zeta. eexists. split; [reflexivity|].
    open_machine m. rewrite bool_decide_eq_true_2 by lia. simpl.
    rewrite <- !app_assoc. by repeat split.
  - intros Hle Hfits.
    by apply (tick_add_coins_buy_overflow _ _ _ product_name price).
  - intros Hlt.
    rewrite (tick_add_coins_short _ _ _ product_name price) by done.
    eexists. split; [reflexivity|].
    open_machine m. rewrite <- !app_assoc. by repeat split.
Qed.

Lemma purchase_decided_by_balance_witness :
  (exists m', tick 2 "gum" thirty_cents = Ok m' /\
              state m' = Some add_coins /\ Money.amount (money m') = 30 - 25) /\
  (exists m', tick 2 "soda" thirty_cents = Ok m' /\
              state m' = Some add_coins /\ Money.amount (money m') = 30).
Proof.
  split.
  - destruct (purchase_decided_by_balance 0 "gum" thirty_cents "GUM" 25)
      as (Hbuy & _ & _).
    + reflexivity.
    + discriminate.
    + vm_compute. reflexivity.
    + vm_compute. reflexivity.
    + destruct Hbuy as (m' & Ht & Hs & _ & Ha & _).
      * simpl. lia.
      * vm_compute. reflexivity.
      * exists m'. split; [exact Ht|]. split; [exact Hs|exact Ha].
  - destruct (purchase_decided_by_balance 0 "soda" thirty_cents "SODA" 100)
      as (_ & _ & Hshort).
    + reflexivity.
    + discriminate.
    + vm_compute. reflexivity.
    + vm_compute. reflexivity.
    + destruct Hshort as (m' & Ht & Hs & _ & Ha & _).
      * simpl. lia.
      * exists m'. split; [exact Ht|]. split; [exact Hs|exact Ha].
Defined.



(** ** Collecting coins *)


(** Coin keys pressed in waiting or add_coins. *)
Lemma run_coins (fuel : nat) (keys : list string) (m : VendingMachine) :
  state m = Some waiting \/ state m = Some add_coins ->
  keys <> [] -> Forall (coin_key (coins m)) keys ->
  exists m' l,
    run (S fuel) keys m = Ok m' /\ state m' = Some add_coins /\
    Money.amount (money m')
      = Money.amount (money m) + coins_total (coins m) keys /\
    coins m' = coins m /\ products m' = products m /\
    coin_values m' = coin_values m /\ change_due m' = change_due m /\
    out m' = out m ++ l /\ coin_signals l = [].
Proof.
  intros [Hs|Hs] Hne Hk; [|by apply run_add_coins].
  destruct keys as [|key keys]; [done|]. clear Hne.
  apply Forall_cons in Hk as [[[coin Hc] _] Hk].
  cbn [run]. rewrite (tick_waiting_coin _ _ _ coin) by done.
  cbn [mbind Result_bind].
  set (ma := update_display _).
  destruct (run_add_coins (S fuel) keys ma)
    as (mb & l & Hr & Hsb & Hab & Hcb & Hpb & Hvb & Hdb & Hob & Hq).
  { subst ma. by open_machine m. }
  { subst ma. open_machine m. exact Hk. }
  exists mb, ([LogAdded coin.2 (Money.amount (money m) + coin.2);
               LogExiting waiting; LogEntering add_coins;
               DisplayAmount (Money.amount (money m) + coin.2)] ++ l).
  split; [exact Hr|]. split; [exact Hsb|].
  rewrite Hab, Hcb, Hpb, Hvb, Hdb, Hob. subst ma.
  cbn [coins_total foldr]. rewrite Hc. fold (coins_total (coins m) keys).
  open_machine m. rewrite <- !app_assoc.
  repeat split; try done; try exact Hq; unfold coins_total; lia.
Qed.



(** ** Refunds *)

Lemma coins_total_nonneg (cs : Coins.t) (keys : list string) :
  positive_coins cs -> 0 <= coins_total cs keys.
Proof.
  intros Hpos. unfold coins_total.
  induction keys as [|key keys IH]; simpl; [lia|].
  destruct (Coins.get_coin key cs) as [coin|] eqn:Hc; [|exact IH].
  pose proof (map_Forall_lookup_1 _ _ _ _ Hpos Hc). simpl in *. lia.
Qed.

(** RETURN pressed in add_coins, read from the fields of the result. *)
Lemma tick_add_coins_return_fields (fuel : nat) (m : VendingMachine) :
  state m = Some add_coins -> printable (Money.amount (money m)) ->
  exists m' l,
    tick (S fuel) "RETURN" m = Ok m' /\ state m' = Some count_change /\
    change_due m' = Money.amount (money m) /\
    Money.amount (money m') = 0 /\
    coins m' = coins m /\ products m' = products m /\
    coin_values m' = coin_values m /\
    out m' = out m ++ l /\ coin_signals l = [] /\ dispensed l = O.
Proof.
  intros Hs Hfits. rewrite tick_add_coins_return by done.
  open_machine m. rewrite <- !app_assoc.
  eexists. eexists. split; [reflexivity|]. simpl. by repeat split.
Qed.

(** Coin keys, RETURN and one more turn, read from the fields of the
    machines in between. *)
Lemma refund_run (ps : Products.t) (cs : Coins.t)
    (m : VendingMachine) (keys : list string) (ev : string) :
  positive_coins cs -> reachable ps cs m ->
  state m = Some waiting \/ state m = Some add_coins ->
  keys <> [] -> Forall (coin_key cs) keys ->
  printable (Money.amount (money m) + coins_total cs keys) ->
  exists m1 m2 l,
    run 1 (keys ++ ["RETURN"]) m = Ok m1 /\
    state m1 = Some count_change /\ Money.amount (money m1) = 0 /\
    change_due m1 = Money.amount (money m) + coins_total cs keys /\
    0 <= change_due m1 /\
    tick (S (Z.to_nat (change_due m1))) ev m1 = Ok m2 /\
    money m2 = money m1 /\
    change_due m2 = residue (Coins.get_values cs) (change_due m1) /\
    out m2 = out m ++ l /\
    coin_signals l = greedy (Coins.get_values cs) (change_due m1) /\
    state m2 = if bool_decide (change_due m2 = 0)
               then Some waiting else Some count_change.
Proof.
  intros Hpos Hr Hs Hne Hk Hfits.
  destruct (reachable_sound_ledger ps cs m Hpos Hr) as (Hc & Hv & Ha & _).
  pose proof (positive_values cs Hpos) as Hvals.
  pose proof (coins_total_nonneg cs keys Hpos) as Htot.
  destruct (run_coins 0 keys m Hs Hne)
    as (ma & la & Hra & Hsa & Haa & _ & _ & Hva & _ & Hoa & Hqa).
  { by rewrite Hc. }
  rewrite Hc in Haa.
  destruct (tick_add_coins_return_fields 0 ma Hsa)
    as (m1 & l1 & Ht1 & Hs1 & Hd1 & Ha1 & _ & _ & Hv1 & Ho1 & Hq1 & _).
  { by rewrite Haa. }
  destruct (tick_count_change_paid (S (Z.to_nat (change_due m1))) ev m1)
    as (m2 & l2 & Ht2 & Hm2 & _ & Hd2 & Ho2 & Hq2 & Hs2);
    [done|by rewrite Hv1, Hva, Hv|lia|lia|].
  assert (Hvm1 : coin_values m1 = Coins.get_values cs) by congruence.
  rewrite Hvm1 in *.
  exists m1, m2, (la ++ l1 ++ l2).
  split. { rewrite run_app, Hra. cbn [mbind Result_bind run]. by rewrite Ht1. }
  split; [exact Hs1|]. split; [exact Ha1|]. split; [lia|]. split; [lia|].
  split; [exact Ht2|]. split; [exact Hm2|]. split; [exact Hd2|].
  split; [by rewrite Ho2, Ho1, Hoa, <- !app_assoc|].
  split; [by rewrite !coin_signals_app, Hqa, Hq1, Hq2|].
  by rewrite Hs2, Hd2.
Qed.

(** X15: a refund gives back what the denominations can express.  With
    positive denominations, in any state a run can reach that is waiting
    or add_coins, pressing coin keys and then RETURN moves the whole
    ledger to the change owing, and the turn after that hands back the
    greedy breakdown: coins handed back plus change still owing equal the
    amount that was in the ledger, and the ledger is empty.  This holds
    for every amount that can be shown in dollars; beyond the floats
    RETURN raises OverflowError and the run ends there. *)
Theorem refund_returns_what_fits (ps : Products.t) (cs : Coins.t)
    (m : VendingMachine) (keys : list string) (ev : string) :
  positive_coins cs -> reachable ps cs m ->
  state m = Some waiting \/ state m = Some add_coins ->
  keys <> [] -> Forall (coin_key cs) keys ->
  (printable (Money.amount (money m) + coins_total cs keys) ->
   exists m1 m2,
     run 1 (keys ++ ["RETURN"]) m = Ok m1 /\
     state m1 = Some count_change /\ Money.amount (money m1) = 0 /\
     change_due m1 = Money.amount (money m) + coins_total cs keys /\
     tick (S (Z.to_nat (change_due m1))) ev m1 = Ok m2 /\
     Money.amount (money m2) = 0 /\
     total (coin_signals (drop (length (out m)) (out m2))) + change_due m2
       = Money.amount (money m) + coins_total cs keys /\
     change_due m2 = residue (Coins.get_values cs) (change_due m1) /\
     (state m2 = Some waiting <-> change_due m2 = 0)) /\
  (~ printable (Money.amount (money m) + coins_total cs keys) ->
   run 1 (keys ++ ["RETURN"]) m = Raise OverflowError).
Proof.
  intros Hpos Hr Hs Hne Hk. split; intros Hfits.
  - destruct (refund_run ps cs m keys ev Hpos Hr Hs Hne Hk Hfits)
      as (m1 & m2 & l & H1 & Hs1 & Ha1 & Hd1 & Hd0 & H2 & Hm2 & Hd2 & Ho & Hq
          & Hs2).
    exists m1, m2. do 4 (split; [done|]). split; [exact H2|].
    split; [by rewrite Hm2|]. split.
    { rewrite Ho, drop_app_length, Hq, Hd2, <- Hd1.
      apply greedy_total; [by apply positive_values|exact Hd0]. }
    split; [exact Hd2|].
    rewrite Hs2. case_bool_decide; split; congruence.
  - destruct (reachable_sound_ledger ps cs m Hpos Hr) as (Hc & _).
    destruct (run_coins 0 keys m Hs Hne)
      as (ma & la & Hra & Hsa & Haa & _).
    { by rewrite Hc. }
    rewrite Hc in Haa.
    rewrite run_app, Hra. cbn [mbind Result_bind run].
    rewrite tick_add_coins_return_overflow; [reflexivity|done|by rewrite Haa].
Qed.

Lemma refund_returns_what_fits_witness :
  exists m1 m2,
    run 1 (["25"; "10"] ++ ["RETURN"]) shipped_start = Ok m1 /\
    tick (S (Z.to_nat (change_due m1))) "__TIMEOUT__" m1 = Ok m2 /\
    total (coin_signals (drop (length (out shipped_start)) (out m2)))
      + change_due m2 = 35.
Proof.
  destruct (refund_returns_what_fits setup_products setup_coins shipped_start
              ["25"; "10"] "__TIMEOUT__") as [Hrefund _].
  - exact shipped_positive_coins.
  - by apply (reachable_start _ _ 1).
  - left. reflexivity.
  - discriminate.
  - repeat constructor; try discriminate; vm_compute; eauto.
  - destruct Hrefund as (m1 & m2 & H1 & _ & _ & _ & H2 & _ & Hsum & _).
    + vm_compute. reflexivity.
    + exists m1, m2. split; [exact H1|]. split; [exact H2|].
      rewrite Hsum. vm_compute. reflexivity.
Defined.

(** X16: in the shipped machine a refund is always complete: whatever
    coins are pressed, from any state a run can reach that is waiting or
    add_coins, RETURN followed by one more turn hands back coins worth
    exactly the ledger, and the machine is waiting with nothing held and
    nothing owing.  The amount to refund is one that can be shown in
    dollars, as every amount below 10^310 cents is. *)
Theorem shipped_refund_is_complete (m : VendingMachine) (keys : list string)
    (ev : string) :
  reachable setup_products setup_coins m ->
  state m = Some waiting \/ state m = Some add_coins ->
  keys <> [] -> Forall (λ key, is_Some (Coins.get_coin key setup_coins)) keys ->
  printable (Money.amount (money m) + coins_total setup_coins keys) ->
  exists m1 m2,
    run 1 (keys ++ ["RETURN"]) m = Ok m1 /\
    tick (S (Z.to_nat (change_due m1))) ev m1 = Ok m2 /\
    state m2 = Some waiting /\ Money.amount (money m2) = 0 /\
    change_due m2 = 0 /\
    total (coin_signals (drop (length (out m)) (out m2)))
      = Money.amount (money m) + coins_total setup_coins keys.
Proof.
  intros Hr Hs Hne Hk Hfits.
  destruct (refund_run setup_products setup_coins m keys ev)
    as (m1 & m2 & l & H1 & _ & Ha1 & Hd1 & Hd0 & H2 & Hm2 & Hd2 & Ho & Hq
        & Hs2);
    [exact shipped_positive_coins|done|done|done| |done|].
  { eapply Forall_impl; [exact Hk|]. apply shipped_coin_key. }
  assert (Hr1 : reachable setup_products setup_coins m1)
    by (by eapply reachable_run).
  destruct (reachable_shipped_inv m1 Hr1) as (_ & _ & _ & _ & _ & _ & H5).
  pose proof (greedy_total _ shipped_values_positive _ Hd0) as Hsum.
  rewrite get_values_shipped in Hd2, Hq.
  rewrite residue_shipped in Hd2, Hsum by done.
  exists m1, m2. split; [exact H1|]. split; [exact H2|].
  rewrite Hs2, Hd2, bool_decide_eq_true_2 by done.
  split; [reflexivity|]. split; [by rewrite Hm2|]. split; [reflexivity|].
  rewrite Ho, drop_app_length, Hq. lia.
Qed.

Lemma shipped_refund_is_complete_witness :
  exists m1 m2,
    run 1 (["100"; "5"] ++ ["RETURN"]) gum_bought = Ok m1 /\
    tick (S (Z.to_nat (change_due m1))) "__TIMEOUT__" m1 = Ok m2 /\
    state m2 = Some waiting /\
    total (coin_signals (drop (length (out gum_bought)) (out m2))) = 110.
Proof.
  destruct (shipped_refund_is_complete gum_bought ["100"; "5"] "__TIMEOUT__")
    as (m1 & m2 & H1 & H2 & Hs & _ & _ & Hsum).
  - apply reachable_main_run. vm_compute. reflexivity.
  - right. vm_compute. reflexivity.
  - discriminate.
  - repeat constructor; vm_compute; eauto.
  - vm_compute. reflexivity.
  - exists m1, m2. split; [exact H1|]. split; [exact H2|].
    split; [exact Hs|]. rewrite Hsum. vm_compute. reflexivity.
Defined.

(** ** The catalogue as a dictionary *)

(** X17: [add_coin] behaves as a dictionary assignment, and [get_values]
    follows it: the new entry is found under its key and every other key
    is untouched; under a fresh key the denominations gain exactly the new
    value, and under a key already present the new value takes the place
    of the old one, the other denominations staying as they were. *)
Theorem add_coin_updates_values (key name : string) (value : Z) (c : Coins.t) :
  Coins.get_coin key (Coins.add_coin key name value c) = Some (name, value) /\
  Coins.coin_exists key (Coins.add_coin key name value c) = true /\
  (forall key', key' <> key ->
     Coins.get_coin key' (Coins.add_coin key name value c)
       = Coins.get_coin key' c) /\
  (Coins.get_coin key c = None ->
     Coins.get_values (Coins.add_coin key name value c)
       ≡ₚ value :: Coins.get_values c) /\
  (forall old, Coins.get_coin key c = Some old ->
     old.2 :: Coins.get_values (Coins.add_coin key name value c)
       ≡ₚ value :: Coins.get_values c).
Proof.
  assert (Hget : Coins.get_coin key (Coins.add_coin key name value c)
                 = Some (name, value)).
  { unfold Coins.get_coin, Coins.add_coin. cbn [Coins.denominations].
    apply lookup_insert_eq. }
  split; [exact Hget|]. split; [by eapply coin_exists_true|].
  split.
  { intros key' Hne. unfold Coins.get_coin, Coins.add_coin.
    cbn [Coins.denominations]. by apply lookup_insert_ne. }
  pose proof (get_values_perm c) as Hp.
  pose proof (get_values_perm (Coins.add_coin key name value c)) as Hp'.
  split.
  - intros Hnone. rewrite Hp, Hp'.
    unfold face_values, Coins.add_coin, Coins.get_coin in *.
    cbn [Coins.denominations]. by rewrite map_to_list_insert.
  - intros [oname ovalue] Hold. cbn [snd]. rewrite Hp, Hp'.
    unfold face_values, Coins.add_coin, Coins.get_coin in *.
    cbn [Coins.denominations].
    rewrite <- (map_to_list_delete _ _ _ Hold).
    rewrite <- insert_delete_eq.
    rewrite map_to_list_insert by apply lookup_delete_eq.
    rewrite !fmap_cons. cbn [snd]. apply Permutation_swap.
Qed.

Lemma add_coin_updates_values_witness :
  Coins.get_values (Coins.add_coin "1" "penny" 1 setup_coins)
    ≡ₚ 1 :: Coins.get_values setup_coins.
Proof.
  destruct (add_coin_updates_values "1" "penny" 1 setup_coins)
    as (_ & _ & _ & H & _).
  apply H. vm_compute. reflexivity.
Defined.

(** ** The repair of FreeSimpleGUI.py at start-up *)

Lemma contains_spec (needle hay : string) :
  (contains needle hay = true ->
   exists at_, String.substring at_ (String.length needle) hay = needle) /\
  (contains needle hay = false ->
   needle <> EmptyString ->
   forall at_, String.substring at_ (String.length needle) hay <> needle).
Proof.
  unfold contains.
  destruct (String.index 0 needle hay) as [n|] eqn:Hi; split; try discriminate.
  - intros _. exists n. by eapply String.index_correct1.
  - intros _ Hne at_. eapply String.index_correct3; [exact Hi|exact Hne|lia].
Qed.


